(** * searchbiz: a shallow embedding of the Google Places scraper

    The development follows the Python sources:

    - [src/config.py]          constants;
    - [src/utils.py]           [sanitize_filename], [format_phone_number];
    - [src/data_processor.py]  [extract_place_data], [generate_filename],
                               [save_to_json], [save_to_csv], [export_data];
    - [src/scraper.py]         [search_places], [get_place_details],
                               [scrape_places].

    Modelling conventions.

    - A Python object obtained from [json.loads] is a [value].  A [dict] is
      an association list in insertion order (Python dicts are ordered and
      the CSV header is taken from [data[0].keys()]).
    - A Python [str] is a Rocq [string] whose characters are the code points
      U+0000..U+00FF (one [ascii] per code point, Latin-1).  On this range
      [str.isalnum] and [str.lower] are tabulated below from CPython's
      Unicode database; strings with code points above U+00FF are outside
      the model.
    - Exceptions are values of [exn]; a computation that may raise returns a
      [result].  [try ... except] is [try_except], which lets an exception
      through when no handler matches its class.
    - The network is a finite script of outcomes, one per request, consumed
      in order; once the script is exhausted every request fails at the
      transport level.  Requests, sleeps and prints are appended to a trace.
    - What [json.dump] and the csv writer do with a value (formatting,
      encoding) is the runtime's and is taken from the environment.
    - The file system is an oracle telling which file names can be opened
      for writing; the clock is read from the world. *)

From Stdlib Require Import ZArith List String Ascii Bool Lia QArith.
From Stdlib Require Import PrimFloat DecimalString.
Import ListNotations.
Open Scope string_scope.
Open Scope Z_scope.

(* ================================================================= *)
(** ** Python values *)

Set Warnings "-register-all".

Inductive value : Type :=
| PNone
| PBool (b : bool)
| PInt (z : Z)
| PFloat (f : float)
| PStr (s : string)
| PList (l : list value)
| PDict (d : list (string * value)).

Definition dict := list (string * value).

(** [bool(v)]: the truth value Python gives an object in [if v:]. *)
Definition truthy (v : value) : bool :=
  match v with
  | PNone => false
  | PBool b => b
  | PInt z => negb (z =? 0)
  | PFloat f => negb (PrimFloat.eqb f 0%float)
  | PStr s => negb (s =? "")%string
  | PList l => match l with [] => false | _ => true end
  | PDict d => match d with [] => false | _ => true end
  end.

(** [v == s] and [v != s] for a string literal [s]. *)
Definition py_eq_str (v : value) (s : string) : bool :=
  match v with
  | PStr t => (t =? s)%string
  | _ => false
  end.

Definition py_ne_str (v : value) (s : string) : bool := negb (py_eq_str v s).

(* ================================================================= *)
(** ** Exceptions and the error monad *)

Inductive exn : Type :=
| AttributeError
| KeyError (k : string)
| TypeError
| ValueError
| IndexError
| OSError
| ConnectionError                       (* requests: raised by session.get *)
| HTTPError                             (* requests: raise_for_status *)
| JSONDecodeError                       (* requests: response.json() *)
| PlainException (status msg : value).  (* raise Exception(f"API error: ...") *)

(** [isinstance(e, requests.RequestException)]. *)
Definition is_RequestException (e : exn) : bool :=
  match e with
  | ConnectionError | HTTPError | JSONDecodeError => true
  | _ => false
  end.

(** [isinstance(e, Exception)]: every exception of the model derives from
    [Exception]. *)
Definition is_Exception (e : exn) : bool :=
  match e with
  | AttributeError | KeyError _ | TypeError | ValueError | IndexError | OSError
  | ConnectionError | HTTPError | JSONDecodeError | PlainException _ _ => true
  end.

Inductive result (A : Type) : Type :=
| Ok (a : A)
| Raise (e : exn).
Arguments Ok {A} a.
Arguments Raise {A} e.

Definition bind {A B : Type} (m : result A) (k : A -> result B) : result B :=
  match m with
  | Ok a => k a
  | Raise e => Raise e
  end.

Notation "x <- m ;; k" := (bind m (fun x => k))
  (at level 61, m at next level, right associativity).

(** [try: body except C1 as e: h1 except C2 as e: h2 ...]: the first handler
    whose class test accepts the exception runs; without one the exception
    propagates. *)
Definition handler (A : Type) : Type :=
  ((exn -> bool) * (exn -> result A))%type.

Definition try_except {A : Type} (body : result A) (hs : list (handler A))
  : result A :=
  match body with
  | Ok a => Ok a
  | Raise e =>
      match find (fun h : handler A => fst h e) hs with
      | Some h => snd h e
      | None => Raise e
      end
  end.

(* ================================================================= *)
(** ** Dictionaries *)

Fixpoint dict_lookup (k : string) (d : dict) : option value :=
  match d with
  | [] => None
  | (k', v) :: d' => if (k =? k')%string then Some v else dict_lookup k d'
  end.

(** [d[k] = v]: an existing key keeps its position, a new key goes last. *)
Fixpoint dict_set (k : string) (v : value) (d : dict) : dict :=
  match d with
  | [] => [(k, v)]
  | (k', v') :: d' =>
      if (k =? k')%string then (k, v) :: d' else (k', v') :: dict_set k v d'
  end.

(** [d.update(u)]. *)
Definition dict_update (d u : dict) : dict :=
  fold_left (fun acc kv => dict_set (fst kv) (snd kv) acc) u d.

Definition dict_keys (d : dict) : list string := map fst d.

(** [d.get(k, '')] on a dict. *)
Definition get_field (k : string) (d : dict) : value :=
  match dict_lookup k d with
  | Some v => v
  | None => PStr ""
  end.

(** [obj.get(k, dflt)]: only a dict has [get]. *)
Definition py_get (obj : value) (k : string) (dflt : value) : result value :=
  match obj with
  | PDict d =>
      match dict_lookup k d with
      | Some v => Ok v
      | None => Ok dflt
      end
  | _ => Raise AttributeError
  end.

(** [obj[k]] for a string key [k]. *)
Definition py_getitem (obj : value) (k : string) : result value :=
  match obj with
  | PDict d =>
      match dict_lookup k d with
      | Some v => Ok v
      | None => Raise (KeyError k)
      end
  | _ => Raise TypeError
  end.

(** [obj.keys()]. *)
Definition py_keys (obj : value) : result (list string) :=
  match obj with
  | PDict d => Ok (dict_keys d)
  | _ => Raise AttributeError
  end.

(** [l[0]]. *)
Definition py_first (l : list value) : result value :=
  match l with
  | [] => Raise IndexError
  | v :: _ => Ok v
  end.

(** The items [list.extend(obj)] appends: the elements of a list, the
    characters of a string, the keys of a dict; anything else is not
    iterable. *)
Definition py_iter (obj : value) : result (list value) :=
  match obj with
  | PList l => Ok l
  | PStr s => Ok (map (fun c => PStr (String c "")) (list_ascii_of_string s))
  | PDict d => Ok (map PStr (dict_keys d))
  | _ => Raise TypeError
  end.

(* ================================================================= *)
(** ** Strings (Latin-1 code points) *)

Definition code (c : ascii) : N := N_of_ascii c.

Definition in_range (lo hi n : N) : bool := ((lo <=? n) && (n <=? hi))%N.

(** [c.isalnum()] on U+0000..U+00FF. *)
Definition isalnum (c : ascii) : bool :=
  let n := code c in
  in_range 48 57 n || in_range 65 90 n || in_range 97 122 n
  || (n =? 170)%N || in_range 178 179 n || (n =? 181)%N
  || in_range 185 186 n || in_range 188 190 n
  || in_range 192 214 n || in_range 216 246 n || in_range 248 255 n.

(** [c.lower()] on U+0000..U+00FF. *)
Definition lower_char (c : ascii) : ascii :=
  let n := code c in
  if in_range 65 90 n || in_range 192 214 n || in_range 216 222 n
  then ascii_of_N (n + 32)
  else c.

Fixpoint str_map (f : ascii -> ascii) (s : string) : string :=
  match s with
  | EmptyString => EmptyString
  | String c s' => String (f c) (str_map f s')
  end.

Fixpoint str_filter (p : ascii -> bool) (s : string) : string :=
  match s with
  | EmptyString => EmptyString
  | String c s' => if p c then String c (str_filter p s') else str_filter p s'
  end.

(** [s.lower()] on a string of code points U+0000..U+00FF.  On this range
    Python lower-cases code point by code point: each one has a lower case
    of one code point, in the same range, and none depends on its context.
    This does not carry over to higher code points (the lower case of
    U+0130 is two code points, that of U+03A3 depends on its position), so
    what is proved of [str_lower] is proved of strings in this range
    only. *)
Definition str_lower (s : string) : string := str_map lower_char s.

(** [s.replace(old, new)] for a one-character [old]. *)
Fixpoint str_replace (old : ascii) (new : string) (s : string) : string :=
  match s with
  | EmptyString => EmptyString
  | String c s' =>
      if Ascii.eqb c old then new ++ str_replace old new s'
      else String c (str_replace old new s')
  end.

(** [s.startswith(c)] for a one-character prefix. *)
Definition str_startswith (s : string) (c : ascii) : bool :=
  match s with
  | EmptyString => false
  | String c' _ => Ascii.eqb c' c
  end.

(** [str(n)] for an int. *)
Definition str_of_int (z : Z) : string := NilZero.string_of_int (Z.to_int z).

(* ================================================================= *)
(** ** src/config.py *)

Definition GOOGLE_PLACES_BASE_URL : string :=
  "https://maps.googleapis.com/maps/api/place".
Definition DEFAULT_RADIUS : Z := 50000.
Definition REQUEST_DELAY : Q := 1 # 10.
Definition PAGINATION_DELAY : Q := 2 # 1.
Definition PLACE_DETAIL_FIELDS : string :=
  "name,formatted_address,geometry,rating,user_ratings_total," ++
  "formatted_phone_number,website,place_id".
Definition OUTPUT_FORMATS : list string := ["json"; "csv"].

(* ================================================================= *)
(** ** src/utils.py *)

(** [sanitize_filename(text)]. *)
Definition sanitize_filename (text : string) : string :=
  let sanitized :=
    str_replace "/" "_" (str_replace "," "_" (str_replace " " "_" text)) in
  let sanitized :=
    str_filter
      (fun c => isalnum c || Ascii.eqb c "_" || Ascii.eqb c "-") sanitized in
  str_lower sanitized.

(** [s.replace(' ', '').replace('-', '').replace('(', '').replace(')', '')] *)
Definition strip_separators (s : string) : string :=
  str_replace ")" "" (str_replace "(" "" (str_replace "-" ""
    (str_replace " " "" s))).

(** [format_phone_number(phone)].  The argument is whatever the detail
    record holds under [formatted_phone_number]; an object that is truthy
    and not a string has no [replace] method. *)
Definition format_phone_number (phone : value) : result value :=
  if negb (truthy phone) then Ok (PStr "")
  else
    match phone with
    | PStr s =>
        let cleaned := strip_separators s in
        if str_startswith s "+" then Ok (PStr s) else Ok (PStr cleaned)
    | _ => Raise AttributeError
    end.

(* ================================================================= *)
(** ** src/data_processor.py: extract_place_data *)

Definition extract_place_data (place_basic place_details : value)
  : result value :=
  (* Start with basic data *)
  name <- py_get place_basic "name" (PStr "") ;;
  place_id <- py_get place_basic "place_id" (PStr "") ;;
  address <- py_get place_basic "formatted_address" (PStr "") ;;
  rating <- py_get place_basic "rating" (PStr "") ;;
  user_ratings_total <- py_get place_basic "user_ratings_total" (PStr "") ;;
  let extracted : dict :=
    [ ("name", name); ("place_id", place_id); ("address", address);
      ("latitude", PStr ""); ("longitude", PStr "");
      ("rating", rating); ("user_ratings_total", user_ratings_total);
      ("phone_number", PStr ""); ("website", PStr "") ] in
  (* Extract coordinates *)
  geometry <- py_get place_basic "geometry" (PDict []) ;;
  location <- py_get geometry "location" (PDict []) ;;
  lat <- py_get location "lat" (PStr "") ;;
  let extracted := dict_set "latitude" lat extracted in
  lng <- py_get location "lng" (PStr "") ;;
  let extracted := dict_set "longitude" lng extracted in
  (* Override with detailed data if available *)
  if truthy place_details then
    cur <- py_getitem (PDict extracted) "name" ;;
    d_name <- py_get place_details "name" cur ;;
    cur <- py_getitem (PDict extracted) "address" ;;
    d_address <- py_get place_details "formatted_address" cur ;;
    cur <- py_getitem (PDict extracted) "rating" ;;
    d_rating <- py_get place_details "rating" cur ;;
    cur <- py_getitem (PDict extracted) "user_ratings_total" ;;
    d_total <- py_get place_details "user_ratings_total" cur ;;
    raw_phone <- py_get place_details "formatted_phone_number" (PStr "") ;;
    d_phone <- format_phone_number raw_phone ;;
    d_website <- py_get place_details "website" (PStr "") ;;
    let extracted :=
      dict_update extracted
        [ ("name", d_name); ("address", d_address); ("rating", d_rating);
          ("user_ratings_total", d_total); ("phone_number", d_phone);
          ("website", d_website) ] in
    (* Update coordinates from details if available *)
    details_geometry <- py_get place_details "geometry" (PDict []) ;;
    details_location <- py_get details_geometry "location" (PDict []) ;;
    if truthy details_location then
      cur <- py_getitem (PDict extracted) "latitude" ;;
      d_lat <- py_get details_location "lat" cur ;;
      let extracted := dict_set "latitude" d_lat extracted in
      cur <- py_getitem (PDict extracted) "longitude" ;;
      d_lng <- py_get details_location "lng" cur ;;
      let extracted := dict_set "longitude" d_lng extracted in
      Ok (PDict extracted)
    else Ok (PDict extracted)
  else Ok (PDict extracted).

(* ================================================================= *)
(** ** The network and the trace *)

Record request : Type := mkRequest { req_url : string; req_params : dict }.

(** What one [session.get(...)] followed by [raise_for_status()] and
    [json()] can end in. *)
Inductive http_outcome : Type :=
| ConnFailure                 (* session.get raises (connectivity, timeout) *)
| HttpFailure                 (* raise_for_status raises on 4xx/5xx *)
| BadBody                     (* the body is not JSON *)
| Body (data : value).       (* the decoded JSON document *)

(** The texts printed by the scraper, by the values they are built from. *)
Inductive log_msg : Type :=
| MsgSearching (place_type location : string)
| MsgNoResults (place_type location : string)
| MsgRetrieved (n total : nat)
| MsgNetworkError (e : exn)
| MsgSearchError (e : exn)
| MsgDetailsApiError (place_id status : value)
| MsgDetailsNetworkError (place_id : value) (e : exn)
| MsgDetailsError (place_id : value) (e : exn)
| MsgProcessing (i n : nat) (name : value).

Inductive event : Type :=
| EvGet (r : request)
| EvSleep (seconds : Q)
| EvPrint (m : log_msg).

Record world : Type :=
  mkWorld { pending : list http_outcome; trace : list event }.

Definition log (evs : list event) (w : world) : world :=
  mkWorld (pending w) (trace w ++ evs).

(** The outcome of the next request; an exhausted script answers with a
    transport failure. *)
Definition next_outcome (script : list http_outcome) : http_outcome :=
  match script with
  | [] => ConnFailure
  | o :: _ => o
  end.

Definition http_get (r : request) (w : world) : http_outcome * world :=
  (next_outcome (pending w), mkWorld (tl (pending w)) (trace w ++ [EvGet r])).

(** [response = session.get(...); response.raise_for_status();
    data = response.json()]. *)
Definition fetch_json (o : http_outcome) : result value :=
  match o with
  | ConnFailure => Raise ConnectionError
  | HttpFailure => Raise HTTPError
  | BadBody => Raise JSONDecodeError
  | Body data => Ok data
  end.

(* ================================================================= *)
(** ** src/scraper.py: search_places *)

(** The request parameters of one search page. *)
Definition search_params (api_key place_type location : string) (radius : Z)
  (next_page_token : value) : dict :=
  let params :=
    [ ("key", PStr api_key);
      ("query", PStr (place_type ++ " in " ++ location));
      ("radius", PInt radius) ] in
  if truthy next_page_token then dict_set "pagetoken" next_page_token params
  else params.

Definition search_request (api_key place_type location : string) (radius : Z)
  (next_page_token : value) : request :=
  mkRequest (GOOGLE_PLACES_BASE_URL ++ "/textsearch/json")
    (search_params api_key place_type location radius next_page_token).

(** How one iteration of [while True] ends: [break] or the next iteration,
    with the accumulator, the token and what was printed. *)
Inductive loop_ctl : Type :=
| Break (places : list value) (out : list event)
| Continue (places : list value) (next_page_token : value) (out : list event).

(** The [try] statement of the loop body, after [session.get] returned
    outcome [o]. *)
Definition search_page (place_type location : string) (o : http_outcome)
  (places : list value) : result loop_ctl :=
  try_except
    (data <- fetch_json o ;;
     status <- py_getitem data "status" ;;
     if py_ne_str status "OK" then
       status <- py_getitem data "status" ;;
       if py_eq_str status "ZERO_RESULTS" then
         Ok (Break places [EvPrint (MsgNoResults place_type location)])
       else
         status <- py_getitem data "status" ;;
         msg <- py_get data "error_message" (PStr "") ;;
         Raise (PlainException status msg)
     else
       results <- py_get data "results" (PList []) ;;
       items <- py_iter results ;;
       let places := (places ++ items)%list in
       let out :=
         [EvPrint (MsgRetrieved (List.length items) (List.length places))] in
       (* Check for next page *)
       next_page_token <- py_get data "next_page_token" PNone ;;
       if negb (truthy next_page_token) then Ok (Break places out)
       else Ok (Continue places next_page_token out))
    [ (is_RequestException,
       fun e => Ok (Break places [EvPrint (MsgNetworkError e)]));
      (is_Exception,
       fun e => Ok (Break places [EvPrint (MsgSearchError e)])) ].

(** The [while True] loop, by recursion on the script of outcomes: every
    iteration issues one request.  The source's loop has no bound of its
    own: it goes on for as long as the provider answers with status OK and
    a truthy token.  The script bounds the provider: it holds finitely many
    answers, after which a request fails at the transport level, which
    breaks the loop.  A statement about where the loop stops is therefore
    made of a script that holds the page it stops at. *)
Fixpoint search_loop (api_key place_type location : string) (radius : Z)
  (script : list http_outcome) (places : list value)
  (next_page_token : value) (tr : list event) {struct script}
  : result (list value) * world :=
  let tr :=
    if truthy next_page_token then (tr ++ [EvSleep PAGINATION_DELAY])%list
    else tr in
  let tr :=
    (tr ++ [EvGet (search_request api_key place_type location radius
                     next_page_token)])%list in
  match script with
  | [] =>
      match search_page place_type location ConnFailure places with
      | Ok (Break places out) => (Ok places, mkWorld [] (tr ++ out))
      | Ok (Continue places _ out) => (Ok places, mkWorld [] (tr ++ out))
      | Raise e => (Raise e, mkWorld [] tr)
      end
  | o :: script' =>
      match search_page place_type location o places with
      | Ok (Break places out) => (Ok places, mkWorld script' (tr ++ out))
      | Ok (Continue places token out) =>
          search_loop api_key place_type location radius script' places token
            (tr ++ out)
      | Raise e => (Raise e, mkWorld script' tr)
      end
  end.

Definition search_places (api_key place_type location : string) (radius : Z)
  (w : world) : result (list value) * world :=
  search_loop api_key place_type location radius (pending w) [] PNone
    (trace w).

(* ================================================================= *)
(** ** src/scraper.py: get_place_details *)

Definition details_request (api_key : string) (place_id : value) : request :=
  mkRequest (GOOGLE_PLACES_BASE_URL ++ "/details/json")
    [ ("key", PStr api_key); ("place_id", place_id);
      ("fields", PStr PLACE_DETAIL_FIELDS) ].

(** The [try] statement of [get_place_details] after [session.get] returned
    outcome [o]: the returned object and what was printed. *)
Definition details_of_outcome (place_id : value) (o : http_outcome)
  : result (value * list event) :=
  try_except
    (data <- fetch_json o ;;
     status <- py_getitem data "status" ;;
     if py_ne_str status "OK" then
       status <- py_getitem data "status" ;;
       Ok (PNone, [EvPrint (MsgDetailsApiError place_id status)])
     else
       r <- py_get data "result" PNone ;;
       Ok (r, []))
    [ (is_RequestException,
       fun e => Ok (PNone, [EvPrint (MsgDetailsNetworkError place_id e)]));
      (is_Exception,
       fun e => Ok (PNone, [EvPrint (MsgDetailsError place_id e)])) ].

Definition get_place_details (api_key : string) (place_id : value) (w : world)
  : result value * world :=
  let '(o, w) := http_get (details_request api_key place_id) w in
  match details_of_outcome place_id o with
  | Ok (r, out) => (Ok r, log out w)
  | Raise e => (Raise e, w)
  end.

(* ================================================================= *)
(** ** src/scraper.py: scrape_places *)

(** [place_details = None; if fetch_details: place_details =
    self.get_place_details(place['place_id']); time.sleep(REQUEST_DELAY)]. *)
Definition fetch_details_step (api_key : string) (fetch_details : bool)
  (place : value) (w : world) : result value * world :=
  if fetch_details then
    match py_getitem place "place_id" with
    | Raise e => (Raise e, w)
    | Ok place_id =>
        match get_place_details api_key place_id w with
        | (Ok d, w) => (Ok d, log [EvSleep REQUEST_DELAY] w)
        | (Raise e, w) => (Raise e, w)
        end
    end
  else (Ok PNone, w).

(** [for i, place in enumerate(places_basic, 1): ...], [n] being
    [len(places_basic)]. *)
Fixpoint scrape_loop (api_key : string) (fetch_details : bool) (n i : nat)
  (todo : list value) (results : list value) (w : world)
  : result (list value) * world :=
  match todo with
  | [] => (Ok results, w)
  | place :: todo' =>
      match py_get place "name" (PStr "Unknown") with
      | Raise e => (Raise e, w)
      | Ok name =>
          let w := log [EvPrint (MsgProcessing i n name)] w in
          match fetch_details_step api_key fetch_details place w with
          | (Raise e, w) => (Raise e, w)
          | (Ok place_details, w) =>
              match extract_place_data place place_details with
              | Raise e => (Raise e, w)
              | Ok extracted_data =>
                  scrape_loop api_key fetch_details n (S i) todo'
                    (results ++ [extracted_data]) w
              end
          end
      end
  end.

Definition scrape_places (api_key place_type location : string)
  (fetch_details : bool) (radius : Z) (w : world)
  : result (list value) * world :=
  let w := log [EvPrint (MsgSearching place_type location)] w in
  match search_places api_key place_type location radius w with
  | (Raise e, w) => (Raise e, w)
  | (Ok places_basic, w) =>
      if negb (truthy (PList places_basic)) then (Ok [], w)
      else
        scrape_loop api_key fetch_details (List.length places_basic) 1
          places_basic [] w
  end.

(* ================================================================= *)
(** ** The operating system and the runtime seen by the exporter *)

(** [clock n] is the [n]-th value read as [int(time.time())]; [write_ok f]
    tells whether file [f] can be opened for writing and the bytes sent to
    it written.  What the serialisers do with the data is the runtime's:
    [json_row_ok v] tells whether [json.dump] can format and encode the row
    [v], [csv_record_ok vs] whether the csv writer can format and encode
    the record [vs] (an integer beyond the interpreter's digit limit cannot
    be formatted, a string holding a lone surrogate cannot be encoded). *)
Record os_env : Type :=
  mkEnv { clock : nat -> Z;
          write_ok : string -> bool;
          json_row_ok : value -> bool;
          csv_record_ok : list value -> bool }.

Inductive os_msg : Type :=
| MsgSaved (filename : string)
| MsgJsonError (e : exn)
| MsgCsvError (e : exn)
| MsgNoData
| MsgUnsupported (fmt : string).

Inductive os_event : Type :=
| OsOpen (filename : string)
| OsPrint (m : os_msg).

Record os_state : Type := mkOs { clock_reads : nat; os_trace : list os_event }.

Definition os_log (evs : list os_event) (st : os_state) : os_state :=
  mkOs (clock_reads st) (os_trace st ++ evs).

(* ================================================================= *)
(** ** src/data_processor.py: the exporter *)

(** [generate_filename(place_type, location, file_extension)]. *)
Definition generate_filename (env : os_env) (place_type location : string)
  (file_extension : string) (st : os_state) : string * os_state :=
  let timestamp := clock env (clock_reads st) in
  let st := mkOs (S (clock_reads st)) (os_trace st) in
  let safe_place_type := sanitize_filename place_type in
  let safe_location := sanitize_filename location in
  (safe_place_type ++ "_" ++ safe_location ++ "_" ++ str_of_int timestamp
     ++ "." ++ file_extension, st).

(** [json.dump(data, f, indent=2, ensure_ascii=False)]: the rows are
    formatted and encoded in order; a row the runtime cannot format or
    encode raises [ValueError] ([UnicodeEncodeError] is one). *)
Definition json_dump (env : os_env) (data : list value) : result unit :=
  if forallb (json_row_ok env) data then Ok tt else Raise ValueError.

(** [save_to_json(data, filename)]. *)
Definition save_to_json (env : os_env) (data : list value) (filename : string)
  (st : os_state) : result bool * os_state :=
  let st := os_log [OsOpen filename] st in
  match
    try_except
      (if write_ok env filename then
         _ <- json_dump env data ;;
         Ok (true, [OsPrint (MsgSaved filename)])
       else Raise OSError)
      [ (is_Exception, fun e => Ok (false, [OsPrint (MsgJsonError e)])) ]
  with
  | Ok (b, out) => (Ok b, os_log out st)
  | Raise e => (Raise e, st)
  end.

(** The record [csv.DictWriter] writes for a row: the value of every field
    in the order of the field names, the empty string ([restval]) for a
    field the row does not hold. *)
Definition csv_record (fieldnames : list string) (row : value) : list value :=
  match row with
  | PDict d => map (fun k => get_field k d) fieldnames
  | _ => []
  end.

(** [csv.DictWriter.writerow]: a row must be a dict whose keys are all
    among the field names ([extrasaction='raise']); its record is then
    formatted and encoded, which raises [ValueError] when the runtime
    cannot. *)
Definition csv_writerow (env : os_env) (fieldnames : list string)
  (row : value) : result unit :=
  keys <- py_keys row ;;
  if forallb (fun k => existsb (String.eqb k) fieldnames) keys then
    if csv_record_ok env (csv_record fieldnames row) then Ok tt
    else Raise ValueError
  else Raise ValueError.

(** [csv.DictWriter.writeheader]: the field names written as a record. *)
Definition csv_writeheader (env : os_env) (fieldnames : list string)
  : result unit :=
  if csv_record_ok env (map PStr fieldnames) then Ok tt
  else Raise ValueError.

Fixpoint csv_writerows (env : os_env) (fieldnames : list string)
  (rows : list value) : result unit :=
  match rows with
  | [] => Ok tt
  | row :: rows' =>
      _ <- csv_writerow env fieldnames row ;;
      csv_writerows env fieldnames rows'
  end.

(** [save_to_csv(data, filename)]. *)
Definition save_to_csv (env : os_env) (data : list value) (filename : string)
  (st : os_state) : result bool * os_state :=
  if negb (truthy (PList data)) then (Ok false, os_log [OsPrint MsgNoData] st)
  else
    let st := os_log [OsOpen filename] st in
    match
      try_except
        (if write_ok env filename then
           first <- py_first data ;;
           fieldnames <- py_keys first ;;
           _ <- csv_writeheader env fieldnames ;;
           _ <- csv_writerows env fieldnames data ;;
           Ok (true, [OsPrint (MsgSaved filename)])
         else Raise OSError)
        [ (is_Exception, fun e => Ok (false, [OsPrint (MsgCsvError e)])) ]
    with
    | Ok (b, out) => (Ok b, os_log out st)
    | Raise e => (Raise e, st)
    end.

(** [for fmt in formats: ...] with the [results] dict built so far. *)
Fixpoint export_loop (env : os_env) (data : list value)
  (place_type location : string) (formats : list string) (results : dict)
  (st : os_state) : result dict * os_state :=
  match formats with
  | [] => (Ok results, st)
  | fmt :: formats' =>
      if (fmt =? "json")%string then
        let '(filename, st) :=
          generate_filename env place_type location "json" st in
        match save_to_json env data filename st with
        | (Ok b, st) =>
            export_loop env data place_type location formats'
              (dict_set "json" (PBool b) results) st
        | (Raise e, st) => (Raise e, st)
        end
      else if (fmt =? "csv")%string then
        let '(filename, st) :=
          generate_filename env place_type location "csv" st in
        match save_to_csv env data filename st with
        | (Ok b, st) =>
            export_loop env data place_type location formats'
              (dict_set "csv" (PBool b) results) st
        | (Raise e, st) => (Raise e, st)
        end
      else
        export_loop env data place_type location formats'
          (dict_set fmt (PBool false) results)
          (os_log [OsPrint (MsgUnsupported fmt)] st)
  end.

(** [export_data(data, place_type, location, formats=None)]. *)
Definition export_data (env : os_env) (data : list value)
  (place_type location : string) (formats : option (list string))
  (st : os_state) : result dict * os_state :=
  let formats :=
    match formats with
    | None => ["json"; "csv"]
    | Some fs => fs
    end in
  export_loop env data place_type location formats [] st.

(* ================================================================= *)
(** ** Vocabulary of the statements *)

(** The value a dict gives for a key, or a default. *)
Definition get_or (k : string) (d : dict) (dflt : value) : value :=
  match dict_lookup k d with
  | Some v => v
  | None => dflt
  end.

(** The [geometry.location] object of a search or detail record of the
    provider's shape: an absent [geometry] or [location] counts as the empty
    object; [None] when either is present and not an object. *)
Definition location_of (rec : dict) : option dict :=
  match dict_lookup "geometry" rec with
  | None => Some []
  | Some (PDict g) =>
      match dict_lookup "location" g with
      | None => Some []
      | Some (PDict l) => Some l
      | Some _ => None
      end
  | Some _ => None
  end.

(** The field of a returned record. *)
Definition out_field (k : string) (r : result value) : option value :=
  match r with
  | Ok (PDict d) => dict_lookup k d
  | _ => None
  end.

(** The separators of a phone number. *)
Definition is_separator (c : ascii) : bool :=
  Ascii.eqb c " " || Ascii.eqb c "-" || Ascii.eqb c "(" || Ascii.eqb c ")".

(** A string with every separator removed. *)
Definition without_separators (s : string) : string :=
  str_filter (fun c => negb (is_separator c)) s.

Fixpoint str_forallb (p : ascii -> bool) (s : string) : bool :=
  match s with
  | EmptyString => true
  | String c s' => p c && str_forallb p s'
  end.

(** [a-z], [0-9], underscore, hyphen. *)
Definition is_ascii_token_char (c : ascii) : bool :=
  in_range 97 122 (code c) || in_range 48 57 (code c)
  || Ascii.eqb c "_" || Ascii.eqb c "-".

Definition is_ascii (c : ascii) : bool := (code c <? 128)%N.

(** What [sanitize_filename] keeps of a character: nothing, an underscore
    for a space, comma or slash, or its lower case. *)
Definition sanitize_char (c : ascii) : string :=
  if Ascii.eqb c " " || Ascii.eqb c "," || Ascii.eqb c "/" then "_"
  else if isalnum c || Ascii.eqb c "_" || Ascii.eqb c "-"
       then String (lower_char c) ""
       else "".

Fixpoint str_concat_map (f : ascii -> string) (s : string) : string :=
  match s with
  | EmptyString => EmptyString
  | String c s' => f c ++ str_concat_map f s'
  end.

(** "São Paulo, BR": the third character is U+00E3. *)
Definition sao_paulo_br : string := String "S" (String "227" "o Paulo, BR").

(** What holds of every character [sanitize_filename] returns: it is kept by
    the filter, it is its own lower case, and when it is ASCII it is one of
    [a-z0-9_-]. *)
Definition sanitized_char_ok (c : ascii) : bool :=
  (isalnum c || Ascii.eqb c "_" || Ascii.eqb c "-")
  && Ascii.eqb (lower_char c) c
  && (negb (is_ascii c) || is_ascii_token_char c).

(** The record built from the search result alone. *)
Definition basic_record (bd bl : dict) : dict :=
  [ ("name", get_or "name" bd (PStr ""));
    ("place_id", get_or "place_id" bd (PStr ""));
    ("address", get_or "formatted_address" bd (PStr ""));
    ("latitude", get_or "lat" bl (PStr ""));
    ("longitude", get_or "lng" bl (PStr ""));
    ("rating", get_or "rating" bd (PStr ""));
    ("user_ratings_total", get_or "user_ratings_total" bd (PStr ""));
    ("phone_number", PStr "");
    ("website", PStr "") ].

(** The record built from a search result and a detail record. *)
Definition merged_record (bd bl dd dl : dict) (phone : value) : dict :=
  [ ("name", get_or "name" dd (get_or "name" bd (PStr "")));
    ("place_id", get_or "place_id" bd (PStr ""));
    ("address",
     get_or "formatted_address" dd (get_or "formatted_address" bd (PStr "")));
    ("latitude",
     if truthy (PDict dl) then get_or "lat" dl (get_or "lat" bl (PStr ""))
     else get_or "lat" bl (PStr ""));
    ("longitude",
     if truthy (PDict dl) then get_or "lng" dl (get_or "lng" bl (PStr ""))
     else get_or "lng" bl (PStr ""));
    ("rating", get_or "rating" dd (get_or "rating" bd (PStr "")));
    ("user_ratings_total",
     get_or "user_ratings_total" dd
       (get_or "user_ratings_total" bd (PStr "")));
    ("phone_number", phone);
    ("website", get_or "website" dd (PStr "")) ].

(** A search result and a detail record used as running examples. *)
Definition example_basic : dict :=
  [ ("name", PStr "Joe's Diner"); ("place_id", PStr "ChIJ1");
    ("formatted_address", PStr "1 Main St");
    ("geometry",
     PDict [("location", PDict [("lat", PInt 48); ("lng", PInt 2)])]);
    ("rating", PInt 4); ("user_ratings_total", PInt 120) ].

Definition example_detail : dict :=
  [ ("name", PStr ""); ("formatted_address", PStr "1 Main Street, Paris");
    ("geometry",
     PDict [("location", PDict [("lat", PInt 49); ("lng", PInt 3)])]);
    ("rating", PInt 5);
    ("formatted_phone_number", PStr "(555) 123-4567") ].

(** A page the provider answered with status OK and iterable results: its
    records and its continuation token. *)
Definition read_page (o : http_outcome) : option (list value * value) :=
  match o with
  | Body (PDict d) =>
      match dict_lookup "status" d with
      | Some s =>
          if py_eq_str s "OK" then
            match py_iter (get_or "results" d (PList [])) with
            | Ok items => Some (items, get_or "next_page_token" d PNone)
            | Raise _ => None
            end
          else None
      | None => None
      end
  | _ => None
  end.

(** A page after which the loop asks for another one. *)
Definition continues (o : http_outcome) : bool :=
  match read_page o with
  | Some (_, token) => truthy token
  | None => false
  end.

(** The records of a run of pages. *)
Definition pages_items (pages : list http_outcome) : list value :=
  flat_map (fun o => match read_page o with
                     | Some (items, _) => items
                     | None => []
                     end) pages.

(** A page that failed at the transport level, or whose status is neither
    OK nor ZERO_RESULTS. *)
Definition page_fails (o : http_outcome) : bool :=
  match o with
  | ConnFailure | HttpFailure | BadBody => true
  | Body (PDict d) =>
      match dict_lookup "status" d with
      | Some s => negb (py_eq_str s "OK") && negb (py_eq_str s "ZERO_RESULTS")
      | None => false
      end
  | Body _ => false
  end.

(** A page with status ZERO_RESULTS. *)
Definition page_zero_results (o : http_outcome) : bool :=
  match o with
  | Body (PDict d) =>
      match dict_lookup "status" d with
      | Some s => py_eq_str s "ZERO_RESULTS"
      | None => false
      end
  | _ => false
  end.

Definition is_error_msg (m : log_msg) : bool :=
  match m with
  | MsgNetworkError _ | MsgSearchError _ => true
  | _ => false
  end.

Definition is_error_event (e : event) : bool :=
  match e with
  | EvPrint m => is_error_msg m
  | _ => false
  end.

Definition is_request (e : event) : bool :=
  match e with
  | EvGet _ => true
  | _ => false
  end.

(** A stretch of trace without any error line. *)
Definition calm (evs : list event) : bool :=
  forallb (fun e => negb (is_error_event e)) evs.

(** What an iteration appends to the trace before its [try] statement. *)
Definition page_prologue (api_key place_type location : string) (radius : Z)
  (token : value) : list event :=
  ((if truthy token then [EvSleep PAGINATION_DELAY] else [])
   ++ [EvGet (search_request api_key place_type location radius token)])%list.


(** The [radius] parameter of every request of a trace. *)
Definition sent_radii (tr : list event) : list value :=
  flat_map (fun e => match e with
                     | EvGet r =>
                         match dict_lookup "radius" (req_params r) with
                         | Some v => [v]
                         | None => []
                         end
                     | _ => []
                     end) tr.

(** A radius parameter that is an integer within the provider's maximum. *)
Definition radius_within_cap (v : value) : bool :=
  match v with
  | PInt z => z <=? DEFAULT_RADIUS
  | _ => false
  end.

Definition count_requests (tr : list event) : nat :=
  List.length (filter is_request tr).

(** A detail response with status OK. *)
Definition detail_status_ok (o : http_outcome) : bool :=
  match o with
  | Body (PDict d) =>
      match dict_lookup "status" d with
      | Some s => py_eq_str s "OK"
      | None => false
      end
  | _ => false
  end.

(** The object a detail lookup yields for an outcome: the [result] member of
    a response with status OK, [None] otherwise. *)
Definition detail_of (o : http_outcome) : value :=
  match o with
  | Body (PDict d) =>
      if detail_status_ok o then get_or "result" d PNone else PNone
  | _ => PNone
  end.

(** The detail object the [i]-th record is normalised with, the detail
    lookups drawing on [script] in order. *)
Definition detail_used (fetch_details : bool) (script : list http_outcome)
  (i : nat) : value :=
  if fetch_details then detail_of (next_outcome (skipn i script)) else PNone.

(** A search result of the provider's shape: an object with an identifier
    whose geometry, when present, is an object holding a location object. *)
Definition basic_shaped (p : value) : bool :=
  match p with
  | PDict bd =>
      match location_of bd, dict_lookup "place_id" bd with
      | Some _, Some _ => true
      | _, _ => false
      end
  | _ => false
  end.

(** A detail object of the provider's shape, or no detail at all: a falsy
    object, or an object whose geometry is as above and whose phone number
    can be formatted. *)
Definition detail_shaped (r : value) : bool :=
  negb (truthy r)
  || match r with
     | PDict dd =>
         match location_of dd,
               format_phone_number
                 (get_or "formatted_phone_number" dd (PStr "")) with
         | Some _, Ok _ => true
         | _, _ => false
         end
     | _ => false
     end.

(** Whether [json.dump] can format and encode the data. *)
Definition json_data_ok (env : os_env) (data : list value) : bool :=
  forallb (json_row_ok env) data.

(** Whether the header and the rows can be written by [csv.DictWriter] with
    the keys of the first row as field names: every row is a dict whose
    keys are among them, and the runtime can format and encode the header
    and every record. *)
Definition csv_rows_ok (env : os_env) (data : list value) : bool :=
  match (first <- py_first data ;;
         fieldnames <- py_keys first ;;
         _ <- csv_writeheader env fieldnames ;;
         csv_writerows env fieldnames data) with
  | Ok _ => true
  | Raise _ => false
  end.

(** A runtime that formats and encodes everything. *)
Definition plain_env (clock : nat -> Z) (write_ok : string -> bool)
  : os_env :=
  mkEnv clock write_ok (fun _ => true) (fun _ => true).

(** Scripts and records used as running examples. *)
Definition page (status : string) (results : list value) (token : value)
  : http_outcome :=
  Body (PDict [ ("status", PStr status); ("results", PList results);
                ("next_page_token", token) ]).

Definition example_place (id : string) : value :=
  PDict [ ("name", PStr ("Place " ++ id)); ("place_id", PStr id) ].

Definition example_detail_response : http_outcome :=
  Body (PDict [("status", PStr "OK"); ("result", PDict example_detail)]).
(* ================================================================= *)
(** ** Further vocabulary *)

(** A character that cannot take a file name out of the current directory
    or end it: no slash, no backslash, no NUL, no space. *)
Definition path_safe_char (c : ascii) : bool :=
  negb (Ascii.eqb c "/") && negb (Ascii.eqb c "\")
  && negb (Ascii.eqb c "000") && negb (Ascii.eqb c " ").

(** The keys of a normalised record, in order. *)
Definition OUTPUT_FIELDS : list string :=
  [ "name"; "place_id"; "address"; "latitude"; "longitude"; "rating";
    "user_ratings_total"; "phone_number"; "website" ].

Definition is_dict (v : value) : bool :=
  match v with
  | PDict _ => true
  | _ => false
  end.

Definition is_str (v : value) : bool :=
  match v with
  | PStr _ => true
  | _ => false
  end.

(** The requests of a trace, in order. *)
Definition sent_requests (tr : list event) : list request :=
  flat_map (fun e => match e with
                     | EvGet r => [r]
                     | _ => []
                     end) tr.

Definition is_sleep (e : event) : bool :=
  match e with
  | EvSleep _ => true
  | _ => false
  end.

Definition count_sleeps (tr : list event) : nat :=
  List.length (filter is_sleep tr).

(** The continuation token of a page read with status OK. *)
Definition page_token (o : http_outcome) : value :=
  match read_page o with
  | Some (_, token) => token
  | None => PNone
  end.

(** The identifier a detail lookup is made with. *)
Definition place_id_of (place : value) : value :=
  match place with
  | PDict bd => get_or "place_id" bd PNone
  | _ => PNone
  end.

Definition is_print (e : event) : bool :=
  match e with
  | EvPrint _ => true
  | _ => false
  end.

(** A record with exactly the output keys, in order. *)
Definition has_schema (o : value) : Prop :=
  exists rec, o = PDict rec /\ dict_keys rec = OUTPUT_FIELDS.

(** Whether the runtime can format and encode the CSV header and the
    record of every row over the nine output fields. *)
Definition csv_content_ok (env : os_env) (data : list value) : bool :=
  csv_record_ok env (map PStr OUTPUT_FIELDS)
  && forallb (fun row => csv_record_ok env (csv_record OUTPUT_FIELDS row))
       data.

Definition is_open (e : os_event) : bool :=
  match e with
  | OsOpen _ => true
  | _ => false
  end.

Definition count_opens (tr : list os_event) : nat :=
  List.length (filter is_open tr).

(** The number of files the exporter opens for a list of formats: one per
    "json", one per "csv" when there is data, none for anything else. *)
Fixpoint expected_opens (data : list value) (formats : list string) : nat :=
  match formats with
  | [] => 0
  | fmt :: formats' =>
      ((if (fmt =? "json")%string then 1
        else if (fmt =? "csv")%string
             then (if truthy (PList data) then 1 else 0)
             else 0)
       + expected_opens data formats')%nat
  end.

(* ================================================================= *)
(** ** src/config.py, continued *)

Definition DEFAULT_PLACE_TYPE : string := "business".
(** "La Défense": the fifth character is U+00E9. *)
Definition DEFAULT_LOCATION : string := "La D" ++ String "233" "fense".
Definition DEFAULT_FETCH_DETAILS : bool := true.

(* ================================================================= *)
(** ** src/utils.py: validate_api_key *)

(** What the validation and the entry point print. *)
Inductive app_msg : Type :=
| MsgNoKeyProvided
| MsgKeyDenied
| MsgKeyQuota
| MsgKeyUncertain (status : value)
| MsgKeyError (e : exn)
| MsgKeyNotFound
| MsgCreateEnvFile
| MsgValidating
| MsgValidated
| MsgCompleted
| MsgFound (n : nat) (place_type location : string)
| MsgExportStatus (format_type : string) (success : bool)
| MsgNoResultsFound
| MsgInterrupted
| MsgErrorOccurred (e : exn).

Inductive app_event : Type :=
| AppProbe (r : request)
| AppPrint (m : app_msg).

Definition validation_request (api_key : string) : request :=
  mkRequest "https://maps.googleapis.com/maps/api/place/textsearch/json"
    [ ("key", PStr api_key); ("query", PStr "restaurant in New York");
      ("radius", PInt 1000) ].

(** [validate_api_key(api_key)].  [probe] is what
    [requests.get(test_url, params=params).json()] evaluates to: the decoded
    document, or the exception raised on the way. *)
Definition validate_api_key (api_key : string) (probe : result value)
  : result bool * list app_event :=
  if negb (truthy (PStr api_key)) then
    (Ok false, [AppPrint MsgNoKeyProvided])
  else
    match
      try_except
        (data <- probe ;;
         status <- py_getitem data "status" ;;
         if py_eq_str status "REQUEST_DENIED" then
           Ok (false, [AppPrint MsgKeyDenied])
         else
           status <- py_getitem data "status" ;;
           if py_eq_str status "OVER_QUERY_LIMIT" then
             Ok (false, [AppPrint MsgKeyQuota])
           else
             status <- py_getitem data "status" ;;
             if py_eq_str status "OK" || py_eq_str status "ZERO_RESULTS"
             then Ok (true, [])
             else
               status <- py_getitem data "status" ;;
               Ok (true, [AppPrint (MsgKeyUncertain status)]))
        [ (is_Exception, fun e => Ok (false, [AppPrint (MsgKeyError e)])) ]
    with
    | Ok (b, out) => (Ok b, AppProbe (validation_request api_key) :: out)
    | Raise e => (Raise e, [AppProbe (validation_request api_key)])
    end.

(* ================================================================= *)
(** ** places_scraper.py: main *)

(** [for format_type, success in export_results.items(): print(...)]. *)
Definition export_report (export_results : dict) : list app_event :=
  map (fun kv => AppPrint (MsgExportStatus (fst kv) (truthy (snd kv))))
    export_results.

(** [isinstance(e, KeyboardInterrupt)]: no exception of the model is one. *)
Definition is_KeyboardInterrupt (e : exn) : bool := false.

(** [main()].  [key] is [GOOGLE_MAPS_API_KEY], that is [os.getenv(...)]:
    absent or a string.  The run ends with what was printed and probed, the
    network and the file system. *)
Definition main (key : option string) (probe : result value) (env : os_env)
  (w : world) (st : os_state)
  : result unit * (list app_event * world * os_state) :=
  let api_key := match key with
                 | Some k => PStr k
                 | None => PNone
                 end in
  if negb (truthy api_key) then
    (Ok tt, ([AppPrint MsgKeyNotFound; AppPrint MsgCreateEnvFile], w, st))
  else
    let k := match key with
             | Some k => k
             | None => ""
             end in
    (* Validate API key *)
    match validate_api_key k probe with
    | (Raise e, out) => (Raise e, (AppPrint MsgValidating :: out, w, st))
    | (Ok valid, out) =>
        if negb valid then (Ok tt, (AppPrint MsgValidating :: out, w, st))
        else
          let evs :=
            (AppPrint MsgValidating :: out ++ [AppPrint MsgValidated])%list in
          let place_type := DEFAULT_PLACE_TYPE in
          let location := DEFAULT_LOCATION in
          let fetch_details := DEFAULT_FETCH_DETAILS in
          let radius := DEFAULT_RADIUS in
          (* Run scraping *)
          let '(r, w) :=
            scrape_places k place_type location fetch_details radius w in
          let '(body, st) :=
            match r with
            | Raise e => (Raise e, st)
            | Ok results =>
                if truthy (PList results) then
                  match export_data env results place_type location None st
                  with
                  | (Raise e, st) => (Raise e, st)
                  | (Ok export_results, st) =>
                      (Ok ([ AppPrint MsgCompleted;
                             AppPrint (MsgFound (List.length results)
                                         place_type location) ]
                           ++ export_report export_results)%list, st)
                  end
                else (Ok [AppPrint MsgNoResultsFound], st)
            end in
          match
            try_except body
              [ (is_KeyboardInterrupt,
                 fun _ => Ok [AppPrint MsgInterrupted]);
                (is_Exception,
                 fun e => Ok [AppPrint (MsgErrorOccurred e)]) ]
          with
          | Ok out => (Ok tt, ((evs ++ out)%list, w, st))
          | Raise e => (Raise e, (evs, w, st))
          end
    end.

(** A status that [validate_api_key] rejects. *)
Definition rejecting_status (s : value) : bool :=
  py_eq_str s "REQUEST_DENIED" || py_eq_str s "OVER_QUERY_LIMIT".

(** Whether the probe came back as an object with a status that is not
    rejected. *)
Definition probe_accepted (probe : result value) : bool :=
  match probe with
  | Ok (PDict d) =>
      match dict_lookup "status" d with
      | Some s => negb (rejecting_status s)
      | None => false
      end
  | _ => false
  end.

(** Whether [main] goes on to scrape. *)
Definition key_usable (key : option string) (probe : result value) : bool :=
  match key with
  | Some k => negb (k =? "")%string && probe_accepted probe
  | None => false
  end.

Definition is_probe (e : app_event) : bool :=
  match e with
  | AppProbe _ => true
  | _ => false
  end.

Definition count_probes (evs : list app_event) : nat :=
  List.length (filter is_probe evs).

(* ================================================================= *)
(** * Properties *)

(** ** Strings *)

Lemma str_replace_empty_filter (old : ascii) (s : string) :
  str_replace old "" s = str_filter (fun c => negb (Ascii.eqb c old)) s.
Proof.
  induction s as [|c s IH]; simpl; [reflexivity|].
  destruct (Ascii.eqb c old); simpl; now rewrite IH.
Qed.

Lemma str_filter_filter (p q : ascii -> bool) (s : string) :
  str_filter p (str_filter q s) = str_filter (fun c => q c && p c) s.
Proof.
  induction s as [|c s IH]; simpl; [reflexivity|].
  destruct (q c); simpl; [destruct (p c)|]; now rewrite IH.
Qed.

Lemma str_filter_ext (p q : ascii -> bool) (s : string) :
  (forall c, p c = q c) -> str_filter p s = str_filter q s.
Proof.
  intros E; induction s as [|c s IH]; simpl; [reflexivity|].
  now rewrite E, IH.
Qed.

Lemma strip_separators_filter (s : string) :
  strip_separators s = without_separators s.
Proof.
  unfold strip_separators, without_separators.
  rewrite !str_replace_empty_filter, !str_filter_filter.
  apply str_filter_ext; intros c; unfold is_separator.
  destruct (Ascii.eqb c " "), (Ascii.eqb c "-"), (Ascii.eqb c "("),
    (Ascii.eqb c ")"); reflexivity.
Qed.

Lemma str_forallb_filter_none (p : ascii -> bool) (s : string) :
  str_forallb (fun c => negb (p c)) (str_filter (fun c => negb (p c)) s) = true.
Proof.
  induction s as [|c s IH]; simpl; [reflexivity|].
  destruct (p c) eqn:E; simpl; [assumption|].
  now rewrite E, IH.
Qed.

(** C5. [format_phone_number] returns a string that starts with '+'
    verbatim, and any other string with every space, hyphen and parenthesis
    removed (the result holds none of them); "+1 (555) 123-4567" is
    returned unchanged and "(555) 123-4567" gives "5551234567". *)
Theorem format_phone_number_string :
  (forall s : string,
      format_phone_number (PStr s) =
      Ok (PStr (if str_startswith s "+" then s else without_separators s)))
  /\ (forall s : string,
         format_phone_number (PStr (String "+" s)) = Ok (PStr (String "+" s)))
  /\ (forall s : string,
         str_forallb (fun c => negb (is_separator c)) (without_separators s)
         = true)
  /\ format_phone_number (PStr "+1 (555) 123-4567")
     = Ok (PStr "+1 (555) 123-4567")
  /\ format_phone_number (PStr "(555) 123-4567") = Ok (PStr "5551234567").
Proof.
  assert (main : forall s : string,
             format_phone_number (PStr s) =
             Ok (PStr (if str_startswith s "+" then s
                       else without_separators s))).
  { intros s. unfold format_phone_number.
    destruct s as [|c s]; [reflexivity|].
    cbn [truthy negb String.eqb].
    rewrite strip_separators_filter.
    destruct (str_startswith (String c s) "+"); reflexivity. }
  split; [exact main|].
  split; [intros s; now rewrite main|].
  split; [intros s; apply str_forallb_filter_none|].
  split; reflexivity.
Qed.

Lemma sanitize_filename_cons (c : ascii) (s : string) :
  sanitize_filename (String c s) = sanitize_char c ++ sanitize_filename s.
Proof.
  unfold sanitize_filename, sanitize_char. cbn [str_replace].
  destruct (Ascii.eqb c " ") eqn:E1.
  { apply Ascii.eqb_eq in E1; subst c; reflexivity. }
  cbn [str_replace]. destruct (Ascii.eqb c ",") eqn:E2.
  { apply Ascii.eqb_eq in E2; subst c; reflexivity. }
  cbn [str_replace]. destruct (Ascii.eqb c "/") eqn:E3.
  { apply Ascii.eqb_eq in E3; subst c; reflexivity. }
  cbn [str_filter orb].
  destruct (isalnum c || Ascii.eqb c "_" || Ascii.eqb c "-"); reflexivity.
Qed.

Lemma sanitize_filename_chars (text : string) :
  sanitize_filename text = str_concat_map sanitize_char text.
Proof.
  induction text as [|c s IH]; [reflexivity|].
  rewrite sanitize_filename_cons, IH; reflexivity.
Qed.

Lemma str_forallb_app (p : ascii -> bool) (s t : string) :
  str_forallb p (s ++ t) = str_forallb p s && str_forallb p t.
Proof.
  induction s as [|c s IH]; simpl; [reflexivity|].
  now rewrite IH, andb_assoc.
Qed.

Lemma sanitize_char_ok (c : ascii) :
  str_forallb sanitized_char_ok (sanitize_char c) = true.
Proof.
  destruct c as [b0 b1 b2 b3 b4 b5 b6 b7].
  destruct b0, b1, b2, b3, b4, b5, b6, b7; vm_compute; reflexivity.
Qed.

Lemma sanitize_filename_ok (text : string) :
  str_forallb sanitized_char_ok (sanitize_filename text) = true.
Proof.
  rewrite sanitize_filename_chars.
  induction text as [|c s IH]; [reflexivity|].
  cbn [str_concat_map]. now rewrite str_forallb_app, sanitize_char_ok, IH.
Qed.

(** C6, as amended.  On every string of code points U+0000..U+00FF,
    [sanitize_filename] turns every space, comma and slash
    into one underscore each, drops every other character that is neither
    alphanumeric for [str.isalnum] nor an underscore nor a hyphen, and lower
    cases the rest.  Every character of the result is alphanumeric for
    [str.isalnum] (which accepts accented letters), an underscore or a
    hyphen, is its own lower case, and is one of [a-z0-9_-] when it is
    ASCII.  "gas station" gives "gas_station"; "São Paulo, BR" gives
    "são_paulo__br". *)
Theorem sanitize_filename_spec :
  (forall text : string,
      sanitize_filename text = str_concat_map sanitize_char text)
  /\ (forall text : string,
         str_forallb sanitized_char_ok (sanitize_filename text) = true)
  /\ sanitize_filename "gas station" = "gas_station"
  /\ sanitize_filename sao_paulo_br = String "s" (String "227" "o_paulo__br").
Proof.
  split; [exact sanitize_filename_chars|].
  split; [exact sanitize_filename_ok|].
  split; reflexivity.
Qed.

(** C6, the claim as stated fails: on "São Paulo, BR" the result is not
    "so_paulo_br" and is not made of [a-z0-9_-] only, since U+00E3 is
    alphanumeric for [str.isalnum]. *)
Lemma sanitize_filename_sao_paulo_counterexample :
  sanitize_filename sao_paulo_br <> "so_paulo_br"
  /\ str_forallb is_ascii_token_char (sanitize_filename sao_paulo_br) = false.
Proof.
  split; [vm_compute; discriminate | reflexivity].
Qed.

(** ** Record normalisation *)

Lemma py_get_dict (d : dict) (k : string) (dflt : value) :
  py_get (PDict d) k dflt = Ok (get_or k d dflt).
Proof.
  unfold py_get, get_or. destruct (dict_lookup k d); reflexivity.
Qed.

Lemma location_of_get (rec l : dict) :
  location_of rec = Some l ->
  exists g, py_get (PDict rec) "geometry" (PDict []) = Ok g
            /\ py_get g "location" (PDict []) = Ok (PDict l).
Proof.
  unfold location_of, py_get.
  destruct (dict_lookup "geometry" rec) as [[| | | | | |g]|]; try discriminate.
  - destruct (dict_lookup "location" g) as [[| | | | | |l']|] eqn:E;
      try discriminate; intros [= <-]; exists (PDict g); rewrite E; auto.
  - intros [= <-]. exists (PDict []); auto.
Qed.

Lemma extract_place_data_falsy (bd bl : dict) (det : value) :
  location_of bd = Some bl ->
  truthy det = false ->
  extract_place_data (PDict bd) det = Ok (PDict (basic_record bd bl)).
Proof.
  intros Hb Hd. destruct (location_of_get _ _ Hb) as (g & Hg & Hl).
  unfold extract_place_data.
  rewrite !py_get_dict in *. cbn [bind].
  injection Hg as <-. rewrite Hl. cbn [bind].
  rewrite !py_get_dict. cbn [bind]. rewrite Hd. reflexivity.
Qed.

Lemma extract_place_data_detail (bd bl dd dl : dict) (phone : value) :
  location_of bd = Some bl ->
  location_of dd = Some dl ->
  format_phone_number (get_or "formatted_phone_number" dd (PStr ""))
  = Ok phone ->
  truthy (PDict dd) = true ->
  extract_place_data (PDict bd) (PDict dd)
  = Ok (PDict (merged_record bd bl dd dl phone)).
Proof.
  intros Hb Hd Hp Ht.
  destruct (location_of_get _ _ Hb) as (g & Hg & Hl).
  destruct (location_of_get _ _ Hd) as (g' & Hg' & Hl').
  unfold extract_place_data.
  rewrite !py_get_dict in *. cbn [bind].
  injection Hg as <-. injection Hg' as <-. rewrite Hl. cbn [bind].
  rewrite !py_get_dict. cbn [bind]. rewrite Ht.
  cbn -[py_get get_or format_phone_number].
  rewrite !py_get_dict. cbn [bind]. rewrite Hp. cbn [bind].
  rewrite Hl'. cbn -[py_get get_or format_phone_number].
  unfold merged_record. cbn [truthy].
  destruct dl; [reflexivity|].
  cbn -[py_get get_or]. rewrite !py_get_dict. reflexivity.
Qed.

(** C2. With a detail record present, name, address, rating and rating
    count are the detail record's whenever it holds them; the phone number
    is the detail record's, formatted, and the website the detail record's;
    latitude and longitude are the detail location's when that location is a
    non-empty object, and the search result's when it is absent or empty;
    the identifier is the search result's.  Without a detail record every
    field is the search result's (the rating in particular), phone number
    and website being empty. *)
Theorem extract_place_data_precedence
  (bd bl dd dl : dict) (phone : value) :
  location_of bd = Some bl ->
  location_of dd = Some dl ->
  format_phone_number (get_or "formatted_phone_number" dd (PStr ""))
  = Ok phone ->
  truthy (PDict dd) = true ->
  let out := extract_place_data (PDict bd) (PDict dd) in
  let basic := extract_place_data (PDict bd) PNone in
  (forall v, dict_lookup "name" dd = Some v -> out_field "name" out = Some v)
  /\ (forall v, dict_lookup "formatted_address" dd = Some v ->
                out_field "address" out = Some v)
  /\ (forall v, dict_lookup "rating" dd = Some v ->
                out_field "rating" out = Some v)
  /\ (forall v, dict_lookup "user_ratings_total" dd = Some v ->
                out_field "user_ratings_total" out = Some v)
  /\ out_field "phone_number" out = Some phone
  /\ out_field "website" out = Some (get_or "website" dd (PStr ""))
  /\ (dl <> [] ->
      out_field "latitude" out
      = Some (get_or "lat" dl (get_or "lat" bl (PStr "")))
      /\ out_field "longitude" out
         = Some (get_or "lng" dl (get_or "lng" bl (PStr ""))))
  /\ (dl = [] ->
      out_field "latitude" out = Some (get_or "lat" bl (PStr ""))
      /\ out_field "longitude" out = Some (get_or "lng" bl (PStr "")))
  /\ out_field "place_id" out = Some (get_or "place_id" bd (PStr ""))
  /\ basic = Ok (PDict (basic_record bd bl))
  /\ (forall r, dict_lookup "rating" bd = Some r ->
                out_field "rating" basic = Some r).
Proof.
  intros Hb Hd Hp Ht out basic. subst out basic.
  rewrite (extract_place_data_detail _ _ _ _ _ Hb Hd Hp Ht).
  rewrite (extract_place_data_falsy _ _ PNone Hb eq_refl).
  unfold merged_record, basic_record, out_field.
  cbn -[get_or truthy].
  repeat split; try reflexivity;
    try (intros v Hv; unfold get_or; now rewrite Hv).
  all: try (destruct dl; [congruence | reflexivity]).
  all: try (now subst dl).
Qed.

(** The precedence theorem at the running example: the detail rating wins. *)
Lemma extract_place_data_precedence_witness :
  location_of example_basic = Some [("lat", PInt 48); ("lng", PInt 2)]
  /\ location_of example_detail = Some [("lat", PInt 49); ("lng", PInt 3)]
  /\ format_phone_number
       (get_or "formatted_phone_number" example_detail (PStr ""))
     = Ok (PStr "5551234567")
  /\ truthy (PDict example_detail) = true
  /\ out_field "rating"
       (extract_place_data (PDict example_basic) (PDict example_detail))
     = Some (PInt 5).
Proof.
  do 4 (split; [reflexivity|]).
  pose proof (extract_place_data_precedence example_basic
                [("lat", PInt 48); ("lng", PInt 2)] example_detail
                [("lat", PInt 49); ("lng", PInt 3)] (PStr "5551234567")
                eq_refl eq_refl eq_refl eq_refl) as H.
  cbv zeta in H. destruct H as (_ & _ & H & _).
  apply H. reflexivity.
Defined.

(** C10. For name, address, rating, rating count and website the value of
    the record built without details is used only when the detail record
    lacks the key: a key the detail record holds gives the output its value,
    whatever that value is and whatever the search result holds.  An empty
    detail name replaces a non-empty search name. *)
Theorem extract_place_data_fallback_only_when_absent
  (bd bl dd dl : dict) (phone : value) :
  location_of bd = Some bl ->
  location_of dd = Some dl ->
  format_phone_number (get_or "formatted_phone_number" dd (PStr ""))
  = Ok phone ->
  truthy (PDict dd) = true ->
  let out := extract_place_data (PDict bd) (PDict dd) in
  let basic := extract_place_data (PDict bd) PNone in
  let merged (key field : string) :=
    out_field field out =
    match dict_lookup key dd with
    | Some v => Some v
    | None => out_field field basic
    end in
  merged "name" "name"
  /\ merged "formatted_address" "address"
  /\ merged "rating" "rating"
  /\ merged "user_ratings_total" "user_ratings_total"
  /\ merged "website" "website"
  /\ out_field "name" (extract_place_data (PDict example_basic) PNone)
     = Some (PStr "Joe's Diner")
  /\ out_field "name"
       (extract_place_data (PDict example_basic) (PDict example_detail))
     = Some (PStr "").
Proof.
  intros Hb Hd Hp Ht out basic merged. subst out basic merged.
  rewrite (extract_place_data_detail _ _ _ _ _ Hb Hd Hp Ht).
  rewrite (extract_place_data_falsy _ _ PNone Hb eq_refl).
  unfold merged_record, basic_record, out_field.
  cbn -[get_or truthy example_basic example_detail extract_place_data].
  unfold get_or.
  repeat split; try reflexivity;
    match goal with
    | |- context [dict_lookup ?k dd] => destruct (dict_lookup k dd)
    end; reflexivity.
Qed.

(** The fallback theorem at the running example: the detail record has no
    website, so the website is that of the basic-only record. *)
Lemma extract_place_data_fallback_witness :
  location_of example_basic = Some [("lat", PInt 48); ("lng", PInt 2)]
  /\ location_of example_detail = Some [("lat", PInt 49); ("lng", PInt 3)]
  /\ format_phone_number
       (get_or "formatted_phone_number" example_detail (PStr ""))
     = Ok (PStr "5551234567")
  /\ truthy (PDict example_detail) = true
  /\ out_field "website"
       (extract_place_data (PDict example_basic) (PDict example_detail))
     = out_field "website" (extract_place_data (PDict example_basic) PNone).
Proof.
  do 4 (split; [reflexivity|]).
  pose proof (extract_place_data_fallback_only_when_absent example_basic
                [("lat", PInt 48); ("lng", PInt 2)] example_detail
                [("lat", PInt 49); ("lng", PInt 3)] (PStr "5551234567")
                eq_refl eq_refl eq_refl eq_refl) as H.
  cbv zeta in H. destruct H as (_ & _ & _ & _ & H & _).
  exact H.
Defined.

(** ** Paged search *)

Lemma py_eq_str_OK_not_ZERO (s : value) :
  py_eq_str s "OK" = true -> py_eq_str s "ZERO_RESULTS" = false.
Proof.
  destruct s; simpl; try discriminate.
  intros H; apply String.eqb_eq in H; subst; reflexivity.
Qed.

Ltac break_case :=
  eexists; split; [reflexivity|]; split; intros; cbn in *;
  first [reflexivity | discriminate | congruence].

(** One page, by cases: a page read with status OK adds its records and
    continues exactly when its token is truthy; any other page breaks the
    loop with the accumulator untouched and one line printed.  No case
    raises. *)
Lemma search_page_cases (pt loc : string) (o : http_outcome)
  (places : list value) :
  match read_page o with
  | Some (items, token) =>
      let places' := (places ++ items)%list in
      let out :=
        [EvPrint (MsgRetrieved (List.length items) (List.length places'))] in
      search_page pt loc o places =
      Ok (if truthy token then Continue places' token out
          else Break places' out)
  | None =>
      exists m, search_page pt loc o places = Ok (Break places [EvPrint m])
                /\ (page_zero_results o = true -> m = MsgNoResults pt loc)
                /\ (page_fails o = true -> is_error_msg m = true)
  end.
Proof.
  unfold search_page, read_page, page_zero_results, page_fails.
  destruct o as [| | |data]; cbn; try break_case.
  destruct data as [| | | | | |d]; cbn; try break_case.
  destruct (dict_lookup "status" d) as [s|] eqn:Es; cbn; [|break_case].
  unfold py_ne_str.
  destruct (py_eq_str s "OK") eqn:Eok; cbn.
  - unfold get_or.
    destruct (dict_lookup "results" d) as [r|]; cbn.
    + destruct (py_iter r) as [items|e] eqn:Ei; cbn.
      * destruct (dict_lookup "next_page_token" d) as [t|]; cbn;
          [destruct (truthy t)|]; reflexivity.
      * rewrite (py_eq_str_OK_not_ZERO _ Eok). cbn.
        destruct r; try discriminate; injection Ei as <-; cbn; break_case.
    + destruct (dict_lookup "next_page_token" d) as [t|]; cbn;
        [destruct (truthy t)|]; reflexivity.
  - destruct (py_eq_str s "ZERO_RESULTS") eqn:Ez; cbn.
    + break_case.
    + destruct (dict_lookup "error_message" d); cbn; break_case.
Qed.

Section SearchLoop.

Variables (api_key place_type location : string) (radius : Z).

Let loop := search_loop api_key place_type location radius.
Let prologue := page_prologue api_key place_type location radius.

Lemma search_loop_cons (o : http_outcome) (script : list http_outcome)
  (places : list value) (token : value) (tr : list event) :
  loop (o :: script) places token tr =
  match search_page place_type location o places with
  | Ok (Break places out) =>
      (Ok places, mkWorld script (tr ++ prologue token ++ out))
  | Ok (Continue places token' out) =>
      loop script places token' (tr ++ prologue token ++ out)
  | Raise e => (Raise e, mkWorld script (tr ++ prologue token))
  end.
Proof.
  unfold loop, prologue, page_prologue. cbn [search_loop].
  destruct (search_page place_type location o places) as [[p out|p t out]|e];
    destruct (truthy token); cbn [app]; rewrite <- ?app_assoc;
    reflexivity.
Qed.

Lemma search_loop_nil (places : list value) (token : value)
  (tr : list event) :
  loop [] places token tr =
  (Ok places,
   mkWorld []
     (tr ++ prologue token ++ [EvPrint (MsgNetworkError ConnectionError)])).
Proof.
  unfold loop, prologue, page_prologue. cbn [search_loop]. cbn.
  destruct (truthy token); cbn [app]; rewrite <- ?app_assoc; reflexivity.
Qed.

Lemma calm_page_prologue (token : value) : calm (prologue token) = true.
Proof.
  unfold prologue, page_prologue.
  destruct (truthy token); reflexivity.
Qed.

Lemma calm_app (xs ys : list event) :
  calm (xs ++ ys) = calm xs && calm ys.
Proof. apply forallb_app. Qed.

(** Pages that continue are consumed one after the other, their records
    accumulated in order, without any error line. *)
Lemma search_loop_prefix (pre rest : list http_outcome) :
  forallb continues pre = true ->
  forall (places : list value) (token : value) (tr : list event),
  exists token' new,
    loop (pre ++ rest) places token tr
    = loop rest (places ++ pages_items pre) token' (tr ++ new)
    /\ calm new = true.
Proof.
  induction pre as [|o pre IH]; intros Hc places token tr.
  - exists token, []. cbn. now rewrite !app_nil_r.
  - cbn in Hc. apply andb_true_iff in Hc as [Ho Hpre].
    cbn [app]. rewrite search_loop_cons.
    pose proof (search_page_cases place_type location o places) as Hp.
    unfold continues in Ho.
    destruct (read_page o) as [[items tok]|] eqn:Er; [|discriminate].
    cbv zeta in Hp. rewrite Ho in Hp. rewrite Hp.
    destruct (IH Hpre (places ++ items)%list tok
                (tr ++ prologue token ++
                 [EvPrint (MsgRetrieved (List.length items)
                             (List.length (places ++ items)))])%list)
      as (token' & new & Hloop & Hcalm).
    exists token'. eexists. split.
    + rewrite Hloop. unfold pages_items. cbn [flat_map]. rewrite Er.
      rewrite <- !app_assoc. reflexivity.
    + rewrite !calm_app, calm_page_prologue, Hcalm. reflexivity.
Qed.

(** A page that is not read with status OK ends the loop: the accumulator
    is returned as it is. *)
Lemma search_loop_break (o : http_outcome) (rest : list http_outcome)
  (places : list value) (token : value) (tr : list event) :
  read_page o = None ->
  exists m,
    loop (o :: rest) places token tr
    = (Ok places, mkWorld rest (tr ++ prologue token ++ [EvPrint m]))
    /\ (page_zero_results o = true -> m = MsgNoResults place_type location)
    /\ (page_fails o = true -> is_error_msg m = true).
Proof.
  intros Er. rewrite search_loop_cons.
  pose proof (search_page_cases place_type location o places) as Hp.
  rewrite Er in Hp. destruct Hp as (m & Hp & Hz & Hf).
  exists m. rewrite Hp. auto.
Qed.

Lemma page_fails_unread (o : http_outcome) :
  page_fails o = true -> read_page o = None.
Proof.
  unfold page_fails, read_page.
  destruct o as [| | |[| | | | | |d]]; try reflexivity.
  destruct (dict_lookup "status" d) as [s|]; [|reflexivity].
  destruct (py_eq_str s "OK"); [discriminate | reflexivity].
Qed.

Lemma page_zero_results_unread (o : http_outcome) :
  page_zero_results o = true -> read_page o = None.
Proof.
  unfold page_zero_results, read_page.
  destruct o as [| | |[| | | | | |d]]; try reflexivity.
  destruct (dict_lookup "status" d) as [s|]; [|reflexivity].
  destruct (py_eq_str s "OK") eqn:E; [|reflexivity].
  now rewrite (py_eq_str_OK_not_ZERO _ E).
Qed.

(** C3. When pages 1..k-1 are read and continue, and page k fails at the
    transport level or has a status that is neither OK nor ZERO_RESULTS,
    [search_places] stops at page k (the later outcomes stay pending),
    raises nothing and returns the records of pages 1..k-1 in order. *)
Theorem search_places_failure_truncates
  (w : world) (pre : list http_outcome) (o : http_outcome)
  (rest : list http_outcome) :
  pending w = (pre ++ o :: rest)%list ->
  forallb continues pre = true ->
  page_fails o = true ->
  exists tr,
    search_places api_key place_type location radius w
    = (Ok (pages_items pre), mkWorld rest tr).
Proof.
  intros Hw Hpre Ho. unfold search_places. rewrite Hw.
  destruct (search_loop_prefix pre (o :: rest) Hpre [] PNone (trace w))
    as (token' & new & Hloop & _).
  fold loop. rewrite Hloop.
  destruct (search_loop_break o rest ([] ++ pages_items pre) token'
              (trace w ++ new) (page_fails_unread o Ho))
    as (m & Hb & _).
  rewrite Hb. eexists. reflexivity.
Qed.

(** C8. A first page with status ZERO_RESULTS gives the empty sequence;
    more generally, after pages that are read and continue, a page with
    status ZERO_RESULTS ends the search with the records accumulated so
    far, nothing raised, the "no results" line printed and no error line
    in the trace. *)
Theorem search_places_zero_results
  (w : world) (pre : list http_outcome) (o : http_outcome)
  (rest : list http_outcome) :
  pending w = (pre ++ o :: rest)%list ->
  forallb continues pre = true ->
  page_zero_results o = true ->
  (exists new,
      search_places api_key place_type location radius w
      = (Ok (pages_items pre),
         mkWorld rest
           (trace w ++ new ++ [EvPrint (MsgNoResults place_type location)]))
      /\ calm new = true)
  /\ (pre = [] ->
      search_places api_key place_type location radius w
      = (Ok [],
         mkWorld rest
           (trace w ++
            [ EvGet (search_request api_key place_type location radius
                       PNone);
              EvPrint (MsgNoResults place_type location) ]))).
Proof.
  intros Hw Hpre Ho. split.
  - unfold search_places. rewrite Hw.
    destruct (search_loop_prefix pre (o :: rest) Hpre [] PNone (trace w))
      as (token' & new & Hloop & Hcalm).
    fold loop. rewrite Hloop.
    destruct (search_loop_break o rest ([] ++ pages_items pre) token'
                (trace w ++ new) (page_zero_results_unread o Ho))
      as (m & Hb & Hz & _).
    rewrite Hb, (Hz Ho). exists (new ++ prologue token')%list. split.
    + rewrite <- !app_assoc. reflexivity.
    + now rewrite calm_app, Hcalm, calm_page_prologue.
  - intros ->. unfold search_places. rewrite Hw. cbn [app]. fold loop.
    destruct (search_loop_break o rest [] PNone (trace w)
                (page_zero_results_unread o Ho)) as (m & Hb & Hz & _).
    rewrite Hb, (Hz Ho). reflexivity.
Qed.

Lemma sent_radii_app (xs ys : list event) :
  sent_radii (xs ++ ys) = (sent_radii xs ++ sent_radii ys)%list.
Proof. apply flat_map_app. Qed.

Lemma sent_radii_prologue (token : value) :
  sent_radii (prologue token) = [PInt radius].
Proof.
  unfold prologue, page_prologue, search_request, search_params.
  destruct (truthy token); reflexivity.
Qed.

(** Every iteration sends the radius it was given, and there is at least
    one iteration. *)
Lemma search_loop_radii (script : list http_outcome) :
  forall (places : list value) (token : value) (tr : list event),
  exists n,
    (1 <= n)%nat
    /\ sent_radii (trace (snd (loop script places token tr)))
       = (sent_radii tr ++ repeat (PInt radius) n)%list.
Proof.
  induction script as [|o script IH]; intros places token tr.
  - exists 1%nat. split; [lia|].
    rewrite search_loop_nil. cbn [snd trace].
    rewrite !sent_radii_app, sent_radii_prologue. reflexivity.
  - rewrite search_loop_cons.
    pose proof (search_page_cases place_type location o places) as Hp.
    destruct (read_page o) as [[items tok]|].
    + cbv zeta in Hp. rewrite Hp. destruct (truthy tok).
      * destruct (IH (places ++ items)%list tok
                    (tr ++ prologue token ++
                     [EvPrint (MsgRetrieved (List.length items)
                                 (List.length (places ++ items)))])%list)
          as (n & Hn & Hr).
        exists (S n). split; [lia|]. rewrite Hr.
        rewrite !sent_radii_app, sent_radii_prologue. cbn.
        rewrite <- app_assoc. reflexivity.
      * exists 1%nat. split; [lia|]. cbn [snd trace].
        rewrite !sent_radii_app, sent_radii_prologue. reflexivity.
    + destruct Hp as (m & Hp & _). rewrite Hp.
      exists 1%nat. split; [lia|]. cbn [snd trace].
      rewrite !sent_radii_app, sent_radii_prologue. reflexivity.
Qed.

(** C4, as amended.  [search_places] sends its radius argument unchanged
    in every request, and sends at least one request: the radius sent is
    within the provider maximum of 50000 exactly when the argument is. *)
Theorem search_places_sends_radius_unchanged (w : world) :
  exists n,
    (1 <= n)%nat
    /\ sent_radii
         (trace (snd (search_places api_key place_type location radius w)))
       = (sent_radii (trace w) ++ repeat (PInt radius) n)%list
    /\ forallb radius_within_cap (repeat (PInt radius) n)
       = (radius <=? DEFAULT_RADIUS).
Proof.
  destruct (search_loop_radii (pending w) [] PNone (trace w))
    as (n & Hn & Hr).
  exists n. repeat split; [assumption | exact Hr |].
  destruct n as [|n]; [lia|]. clear.
  induction n as [|n IH]; cbn in *; [now rewrite andb_true_r|].
  rewrite IH. now rewrite andb_diag.
Qed.

End SearchLoop.

(** The truncation theorem on a script whose second page is rejected. *)
Lemma search_places_failure_truncates_witness :
  let first := page "OK" [example_place "a"; example_place "b"] (PStr "t1") in
  let second := page "OVER_QUERY_LIMIT" [] PNone in
  let w := mkWorld [first; second; ConnFailure] [] in
  pending w = ([first] ++ second :: [ConnFailure])%list
  /\ forallb continues [first] = true
  /\ page_fails second = true
  /\ exists tr,
       search_places "key" "cafe" "Paris" 50000 w
       = (Ok [example_place "a"; example_place "b"], mkWorld [ConnFailure] tr).
Proof.
  intros first second w. do 3 (split; [reflexivity|]).
  exact (search_places_failure_truncates "key" "cafe" "Paris" 50000 w
           [first] second [ConnFailure] eq_refl eq_refl eq_refl).
Defined.

(** The zero-results theorem on a first page with status ZERO_RESULTS. *)
Lemma search_places_zero_results_witness :
  let o := page "ZERO_RESULTS" [] PNone in
  let w := mkWorld [o] [] in
  pending w = ([] ++ o :: [])%list
  /\ forallb continues [] = true
  /\ page_zero_results o = true
  /\ search_places "key" "cafe" "Paris" 50000 w
     = (Ok [],
        mkWorld []
          [ EvGet (search_request "key" "cafe" "Paris" 50000 PNone);
            EvPrint (MsgNoResults "cafe" "Paris") ]).
Proof.
  intros o w. do 3 (split; [reflexivity|]).
  exact (proj2 (search_places_zero_results "key" "cafe" "Paris" 50000 w
                  [] o [] eq_refl eq_refl eq_refl) eq_refl).
Defined.

(** C4, the claim as stated fails: a radius of 60000 is sent as it is. *)
Lemma search_places_radius_counterexample :
  sent_radii
    (trace (snd (search_places "key" "cafe" "Paris" 60000 (mkWorld [] []))))
  = [PInt 60000]
  /\ forallb radius_within_cap
       (sent_radii
          (trace (snd (search_places "key" "cafe" "Paris" 60000
                         (mkWorld [] [])))))
     = false.
Proof. split; reflexivity. Qed.

(** ** Detail lookup *)

Lemma count_requests_app (xs ys : list event) :
  count_requests (xs ++ ys) = (count_requests xs + count_requests ys)%nat.
Proof. unfold count_requests. now rewrite filter_app, length_app. Qed.

(** The [try] statement of a detail lookup yields [detail_of] the outcome,
    raises nothing and sends nothing. *)
Lemma details_of_outcome_cases (place_id : value) (o : http_outcome) :
  exists out,
    details_of_outcome place_id o = Ok (detail_of o, out)
    /\ count_requests out = 0%nat.
Proof.
  unfold details_of_outcome, detail_of, detail_status_ok.
  destruct o as [| | |data]; cbn; try (eexists; split; reflexivity).
  destruct data as [| | | | | |d]; cbn; try (eexists; split; reflexivity).
  destruct (dict_lookup "status" d) as [s|]; cbn;
    [|eexists; split; reflexivity].
  unfold py_ne_str. destruct (py_eq_str s "OK"); cbn.
  - unfold get_or. destruct (dict_lookup "result" d); cbn;
      eexists; split; reflexivity.
  - eexists; split; reflexivity.
Qed.

Lemma get_place_details_cases (api_key : string) (place_id : value)
  (w : world) :
  exists out,
    get_place_details api_key place_id w
    = (Ok (detail_of (next_outcome (pending w))),
       mkWorld (tl (pending w))
         (trace w ++ EvGet (details_request api_key place_id) :: out))
    /\ count_requests out = 0%nat.
Proof.
  unfold get_place_details, http_get.
  destruct (details_of_outcome_cases place_id (next_outcome (pending w)))
    as (out & -> & Hout).
  exists out. split; [|assumption].
  unfold log. cbn [pending trace]. rewrite <- app_assoc. reflexivity.
Qed.

(** C7. [get_place_details] sends exactly one request and consumes exactly
    one outcome, raises nothing, returns [None] whenever the request failed
    at the transport level or the response status is not OK, and returns
    the [result] member of the response when its status is OK; what it
    returns differs from [None] only for a status OK. *)
Theorem get_place_details_single_attempt (api_key : string)
  (place_id : value) (w : world) :
  let o := next_outcome (pending w) in
  let r := get_place_details api_key place_id w in
  fst r = Ok (detail_of o)
  /\ (detail_status_ok o = false -> fst r = Ok PNone)
  /\ (forall v, fst r = Ok v -> v <> PNone -> detail_status_ok o = true)
  /\ pending (snd r) = tl (pending w)
  /\ count_requests (trace (snd r)) = S (count_requests (trace w))
  /\ exists out,
       trace (snd r)
       = (trace w ++ EvGet (details_request api_key place_id) :: out)%list.
Proof.
  intros o r. subst o r.
  destruct (get_place_details_cases api_key place_id w) as (out & -> & Hout).
  cbn [fst snd pending trace].
  assert (Hno : detail_status_ok (next_outcome (pending w)) = false ->
                detail_of (next_outcome (pending w)) = PNone).
  { unfold detail_of. destruct (next_outcome (pending w)) as [| | |[]];
      try reflexivity. now intros ->. }
  split; [reflexivity|].
  split; [intros H; now rewrite (Hno H)|].
  split.
  { intros v [= <-] Hv.
    destruct (detail_status_ok (next_outcome (pending w))); [reflexivity|].
    now destruct Hv; apply Hno. }
  split; [reflexivity|].
  split; [|now exists out].
  change (EvGet (details_request api_key place_id) :: out)
    with ([EvGet (details_request api_key place_id)] ++ out)%list.
  rewrite !count_requests_app, Hout. cbn. lia.
Qed.

(** ** The orchestrator *)

(** Normalising a shaped search result with a shaped detail object, or with
    none, succeeds and keeps the identifier; with a falsy detail object the
    record is the one built from the search result alone. *)
Lemma extract_place_data_shaped (p d : value) :
  basic_shaped p = true ->
  detail_shaped d = true ->
  exists o,
    extract_place_data p d = Ok o
    /\ out_field "place_id" (Ok o) = out_field "place_id" (Ok p)
    /\ (truthy d = false -> Ok o = extract_place_data p PNone).
Proof.
  unfold basic_shaped, detail_shaped.
  destruct p as [| | | | | |bd]; try discriminate.
  destruct (location_of bd) as [bl|] eqn:Hb; [|discriminate].
  destruct (dict_lookup "place_id" bd) as [pid|] eqn:Hpid; [|discriminate].
  intros _ Hd.
  assert (Hid : dict_lookup "place_id" bd
                = Some (get_or "place_id" bd (PStr ""))).
  { unfold get_or. now rewrite Hpid. }
  destruct (truthy d) eqn:Ht.
  - cbn [negb orb] in Hd.
    destruct d as [| | | | | |dd]; try discriminate.
    destruct (location_of dd) as [dl|] eqn:Hdl; [|discriminate].
    destruct (format_phone_number
                (get_or "formatted_phone_number" dd (PStr "")))
      as [phone|] eqn:Hp; [|discriminate].
    rewrite (extract_place_data_detail _ _ _ _ _ Hb Hdl Hp Ht).
    eexists. split; [reflexivity|]. split; [|discriminate].
    cbn -[get_or truthy]. now rewrite Hid.
  - rewrite (extract_place_data_falsy _ _ d Hb Ht).
    rewrite (extract_place_data_falsy _ _ PNone Hb eq_refl).
    eexists. split; [reflexivity|]. split; [|reflexivity].
    cbn -[get_or]. now rewrite Hid.
Qed.

Lemma fetch_details_step_shaped (api_key : string) (fetch_details : bool)
  (place : value) (w : world) :
  basic_shaped place = true ->
  exists w',
    fetch_details_step api_key fetch_details place w
    = (Ok (detail_used fetch_details (pending w) 0), w')
    /\ pending w' = if fetch_details then tl (pending w) else pending w.
Proof.
  intros Hp. unfold fetch_details_step, detail_used.
  destruct fetch_details; [|eauto].
  unfold basic_shaped in Hp.
  destruct place as [| | | | | |bd]; try discriminate.
  destruct (location_of bd); [|discriminate].
  cbn [py_getitem].
  destruct (dict_lookup "place_id" bd) as [pid|]; [|discriminate].
  destruct (get_place_details_cases api_key pid w) as (out & -> & _).
  eexists. split; reflexivity.
Qed.

Lemma forallb_tl {A : Type} (p : A -> bool) (l : list A) :
  forallb p l = true -> forallb p (tl l) = true.
Proof.
  destruct l as [|a l]; [auto|]. cbn. intros H.
  now apply andb_true_iff in H.
Qed.

Lemma skipn_S_tl {A : Type} (n : nat) (l : list A) :
  skipn (S n) l = skipn n (tl l).
Proof. destruct l; [now destruct n | reflexivity]. Qed.

Lemma detail_used_shaped (fetch_details : bool) (script : list http_outcome) :
  (fetch_details = true ->
   forallb (fun o => detail_shaped (detail_of o)) script = true) ->
  detail_shaped (detail_used fetch_details script 0) = true.
Proof.
  unfold detail_used. destruct fetch_details; [|reflexivity].
  intros H; specialize (H eq_refl).
  cbn [skipn]. destruct script as [|o script]; [reflexivity|].
  cbn in *. now apply andb_true_iff in H.
Qed.

(** The per-record loop appends one record per search result, in order, the
    [j]-th one normalised with the [j]-th detail object. *)
Lemma scrape_loop_spec (api_key : string) (fetch_details : bool) (n : nat)
  (todo : list value) :
  forall (i : nat) (results : list value) (w : world),
    forallb basic_shaped todo = true ->
    (fetch_details = true ->
     forallb (fun o => detail_shaped (detail_of o)) (pending w) = true) ->
    exists outs w',
      scrape_loop api_key fetch_details n i todo results w
      = (Ok (results ++ outs)%list, w')
      /\ List.length outs = List.length todo
      /\ forall j p,
           nth_error todo j = Some p ->
           exists o,
             nth_error outs j = Some o
             /\ extract_place_data p (detail_used fetch_details (pending w) j)
                = Ok o
             /\ out_field "place_id" (Ok o) = out_field "place_id" (Ok p)
             /\ (truthy (detail_used fetch_details (pending w) j) = false ->
                 Ok o = extract_place_data p PNone).
Proof.
  induction todo as [|place todo IH]; intros i results w Hshape Hscript.
  - exists [], w. rewrite app_nil_r. repeat split.
    intros [|j] p; discriminate.
  - cbn in Hshape. apply andb_true_iff in Hshape as [Hplace Htodo].
    cbn [scrape_loop].
    assert (Hname : exists name,
               py_get place "name" (PStr "Unknown") = Ok name).
    { destruct place; try discriminate. rewrite py_get_dict. eauto. }
    destruct Hname as (name & ->).
    destruct (fetch_details_step_shaped api_key fetch_details place
                (log [EvPrint (MsgProcessing i n name)] w) Hplace)
      as (w1 & -> & Hw1).
    cbn [log pending] in *.
    destruct (extract_place_data_shaped place
                (detail_used fetch_details (pending w) 0) Hplace
                (detail_used_shaped fetch_details _ Hscript))
      as (o & Ho & Hid & Hfalsy).
    rewrite Ho.
    assert (Hscript1 :
              fetch_details = true ->
              forallb (fun o => detail_shaped (detail_of o)) (pending w1)
              = true).
    { intros Hfd. rewrite Hw1, Hfd. apply forallb_tl, Hscript, Hfd. }
    destruct (IH (S i) (results ++ [o])%list w1 Htodo Hscript1)
      as (outs & w' & -> & Hlen & Hnth).
    exists (o :: outs), w'. rewrite <- app_assoc. split; [reflexivity|].
    split; [cbn; now rewrite Hlen|].
    intros [|j] p Hp.
    + injection Hp as <-. exists o. auto.
    + destruct (Hnth j p Hp) as (o' & Ho' & He & Hid' & Hf').
      assert (Hd : detail_used fetch_details (pending w) (S j)
                   = detail_used fetch_details (pending w1) j).
      { unfold detail_used. rewrite Hw1.
        destruct fetch_details; [now rewrite skipn_S_tl | reflexivity]. }
      exists o'. rewrite Hd. auto.
Qed.

(** C1. When the search returned [places], every one a search result of
    the provider's shape, and (when details are fetched) the detail
    responses still pending are of the provider's shape, [scrape_places]
    returns, with or without detail fetching, exactly one record per search
    result, in the same order: the
    [i]-th record is the [i]-th search result normalised with the object its
    detail lookup returned and carries the same identifier; when that
    lookup returned nothing the record is the one built from the search
    result alone. *)
Theorem scrape_places_length_order
  (api_key place_type location : string) (fetch_details : bool) (radius : Z)
  (w : world) (places : list value) (w1 : world) :
  search_places api_key place_type location radius
    (log [EvPrint (MsgSearching place_type location)] w)
  = (Ok places, w1) ->
  forallb basic_shaped places = true ->
  (fetch_details = true ->
   forallb (fun o => detail_shaped (detail_of o)) (pending w1) = true) ->
  exists out w2,
    scrape_places api_key place_type location fetch_details radius w
    = (Ok out, w2)
    /\ List.length out = List.length places
    /\ forall i p,
         nth_error places i = Some p ->
         exists o,
           nth_error out i = Some o
           /\ extract_place_data p (detail_used fetch_details (pending w1) i)
              = Ok o
           /\ out_field "place_id" (Ok o) = out_field "place_id" (Ok p)
           /\ (truthy (detail_used fetch_details (pending w1) i) = false ->
               Ok o = extract_place_data p PNone).
Proof.
  intros Hsearch Hshape Hscript. unfold scrape_places. rewrite Hsearch.
  destruct places as [|p0 places].
  - exists [], w1. repeat split. intros [|i] p; discriminate.
  - cbn [truthy negb].
    destruct (scrape_loop_spec api_key fetch_details
                (List.length (p0 :: places)) (p0 :: places) 1 [] w1
                Hshape Hscript) as (outs & w2 & Hloop & Hlen & Hnth).
    exists outs, w2. auto.
Qed.

(** The orchestrator theorem on two search results, the first detail lookup
    failing and the second succeeding. *)
Lemma scrape_places_length_order_witness :
  let first := page "OK" [example_place "a"; example_place "b"] PNone in
  let w := mkWorld [first; ConnFailure; example_detail_response] [] in
  let places := [example_place "a"; example_place "b"] in
  forallb basic_shaped places = true
  /\ forallb (fun o => detail_shaped (detail_of o))
       [ConnFailure; example_detail_response] = true
  /\ exists out w2,
       scrape_places "key" "cafe" "Paris" true 50000 w = (Ok out, w2)
       /\ List.length out = 2%nat.
Proof.
  intros first w places. do 2 (split; [reflexivity|]).
  destruct (scrape_places_length_order "key" "cafe" "Paris" true 50000 w
              places
              (snd (search_places "key" "cafe" "Paris" 50000
                      (log [EvPrint (MsgSearching "cafe" "Paris")] w)))
              eq_refl eq_refl (fun _ => eq_refl))
    as (out & w2 & H & Hlen & _).
  exists out, w2. split; assumption.
Defined.

(** ** The exporter *)

Lemma is_Exception_all (e : exn) : is_Exception e = true.
Proof. destruct e; reflexivity. Qed.

Lemma try_catch_all {A : Type} (body : result A) (h : exn -> result A) :
  try_except body [(is_Exception, h)]
  = match body with
    | Ok a => Ok a
    | Raise e => h e
    end.
Proof.
  destruct body as [a|e]; [reflexivity|].
  cbn. now rewrite is_Exception_all.
Qed.

Lemma save_to_json_cases (env : os_env) (data : list value)
  (filename : string) (st : os_state) :
  exists m,
    save_to_json env data filename st
    = (Ok (write_ok env filename && json_data_ok env data),
       mkOs (clock_reads st)
         (os_trace st ++ [OsOpen filename; OsPrint m])).
Proof.
  unfold save_to_json, json_dump, json_data_ok, os_log.
  cbn [os_trace clock_reads]. rewrite try_catch_all.
  destruct (write_ok env filename); cbn [andb];
    [destruct (forallb (json_row_ok env) data)|]; cbn;
    eexists; rewrite <- app_assoc; reflexivity.
Qed.

Lemma save_to_csv_cases (env : os_env) (data : list value)
  (filename : string) (st : os_state) :
  data <> [] ->
  exists m,
    save_to_csv env data filename st
    = (Ok (write_ok env filename && csv_rows_ok env data),
       mkOs (clock_reads st)
         (os_trace st ++ [OsOpen filename; OsPrint m])).
Proof.
  intros Hne. unfold save_to_csv, csv_rows_ok, os_log.
  destruct data as [|row data]; [congruence|].
  cbn [truthy negb os_trace clock_reads]. rewrite try_catch_all.
  destruct (write_ok env filename); cbn [andb];
    [|cbn; eexists; rewrite <- app_assoc; reflexivity].
  cbn [py_first bind].
  destruct (py_keys row) as [fns|e]; cbn [bind];
    [|eexists; rewrite <- app_assoc; reflexivity].
  destruct (csv_writeheader env fns) as [u|e]; cbn [bind];
    [|eexists; rewrite <- app_assoc; reflexivity].
  destruct (csv_writerows env fns (row :: data)) as [u'|e]; cbn [bind];
    eexists; rewrite <- app_assoc; reflexivity.
Qed.

Lemma export_loop_json (env : os_env) (data : list value)
  (place_type location : string) (formats : list string) (results : dict)
  (st : os_state) :
  export_loop env data place_type location ("json" :: formats) results st =
  let '(filename, st) :=
    generate_filename env place_type location "json" st in
  match save_to_json env data filename st with
  | (Ok b, st) =>
      export_loop env data place_type location formats
        (dict_set "json" (PBool b) results) st
  | (Raise e, st) => (Raise e, st)
  end.
Proof. reflexivity. Qed.

Lemma export_loop_csv (env : os_env) (data : list value)
  (place_type location : string) (formats : list string) (results : dict)
  (st : os_state) :
  export_loop env data place_type location ("csv" :: formats) results st =
  let '(filename, st) :=
    generate_filename env place_type location "csv" st in
  match save_to_csv env data filename st with
  | (Ok b, st) =>
      export_loop env data place_type location formats
        (dict_set "csv" (PBool b) results) st
  | (Raise e, st) => (Raise e, st)
  end.
Proof. reflexivity. Qed.

(** C9. With non-empty data and the formats json and csv (given or by
    default), [export_data] raises nothing and returns a map with one entry
    per format: json succeeds exactly when its file can be written and
    [json.dump] can serialise the data, csv exactly when its file can be
    written and the csv writer can write the header and the rows.  Both
    files are opened whatever happens to the other, and each entry is the
    outcome of its own format: when one format fails and the other
    succeeds the map holds false for the one and true for the other; in
    particular, when the csv file is denied and json succeeds, the map is
    {json: true, csv: false}. *)
Theorem export_data_per_format (env : os_env) (data : list value)
  (place_type location : string) (st : os_state) :
  data <> [] ->
  let json_file := fst (generate_filename env place_type location "json" st) in
  let csv_file :=
    fst (generate_filename env place_type location "csv"
           (mkOs (S (clock_reads st)) (os_trace st))) in
  let json_ok := write_ok env json_file && json_data_ok env data in
  let csv_ok := write_ok env csv_file && csv_rows_ok env data in
  (exists m1 m2,
      export_data env data place_type location (Some ["json"; "csv"]) st
      = (Ok [("json", PBool json_ok); ("csv", PBool csv_ok)],
         mkOs (S (S (clock_reads st)))
           (os_trace st ++ [ OsOpen json_file; OsPrint m1;
                             OsOpen csv_file; OsPrint m2 ])))
  /\ export_data env data place_type location None st
     = export_data env data place_type location (Some ["json"; "csv"]) st
  /\ (json_ok = true -> csv_ok = false ->
      fst (export_data env data place_type location (Some ["json"; "csv"]) st)
      = Ok [("json", PBool true); ("csv", PBool false)])
  /\ (json_ok = false -> csv_ok = true ->
      fst (export_data env data place_type location (Some ["json"; "csv"]) st)
      = Ok [("json", PBool false); ("csv", PBool true)])
  /\ (json_ok = true -> write_ok env csv_file = false ->
      fst (export_data env data place_type location (Some ["json"; "csv"]) st)
      = Ok [("json", PBool true); ("csv", PBool false)]).
Proof.
  intros Hne json_file csv_file json_ok csv_ok.
  assert (Hmain : exists m1 m2,
      export_data env data place_type location (Some ["json"; "csv"]) st
      = (Ok [("json", PBool json_ok); ("csv", PBool csv_ok)],
         mkOs (S (S (clock_reads st)))
           (os_trace st ++ [ OsOpen json_file; OsPrint m1;
                             OsOpen csv_file; OsPrint m2 ]))).
  { assert (G1 : generate_filename env place_type location "json" st
                 = (json_file, mkOs (S (clock_reads st)) (os_trace st)))
      by reflexivity.
    assert (G2 : forall tr,
               generate_filename env place_type location "csv"
                 (mkOs (S (clock_reads st)) tr)
               = (csv_file, mkOs (S (S (clock_reads st))) tr))
      by reflexivity.
    subst json_ok csv_ok. clearbody json_file csv_file.
    unfold export_data. rewrite export_loop_json, G1. cbv beta iota.
    destruct (save_to_json_cases env data json_file
                (mkOs (S (clock_reads st)) (os_trace st))) as (m1 & ->).
    cbn [clock_reads os_trace].
    rewrite export_loop_csv, G2. cbv beta iota.
    destruct (save_to_csv_cases env data csv_file
                (mkOs (S (S (clock_reads st)))
                   (os_trace st ++ [OsOpen json_file; OsPrint m1])) Hne)
      as (m2 & ->).
    cbn [clock_reads os_trace export_loop].
    exists m1, m2. rewrite <- app_assoc. reflexivity. }
  split; [exact Hmain|]. split; [reflexivity|].
  destruct Hmain as (m1 & m2 & ->). cbn [fst].
  split; [|split].
  - intros -> ->. reflexivity.
  - intros -> ->. reflexivity.
  - intros -> Hc. subst csv_ok. rewrite Hc. reflexivity.
Qed.

(** The exporter theorem with the csv file denied, and with writable
    files and data [json.dump] cannot serialise. *)
Lemma export_data_per_format_witness :
  let denied := mkEnv (fun _ => 1700000000)
                  (fun f => negb (String.eqb f "cafe_paris_1700000000.csv"))
                  (fun _ => true) (fun _ => true) in
  let undumpable := mkEnv (fun _ => 1700000000) (fun _ => true)
                      (fun _ => false) (fun _ => true) in
  let data := [PDict (basic_record example_basic [])] in
  data <> []
  /\ fst (export_data denied data "cafe" "Paris" (Some ["json"; "csv"])
            (mkOs 0 []))
     = Ok [("json", PBool true); ("csv", PBool false)]
  /\ fst (export_data undumpable data "cafe" "Paris" (Some ["json"; "csv"])
            (mkOs 0 []))
     = Ok [("json", PBool false); ("csv", PBool true)].
Proof.
  intros denied undumpable data.
  assert (Hne : data <> []) by discriminate.
  split; [exact Hne|]. split.
  - exact (proj2 (proj2 (proj2 (proj2
             (export_data_per_format denied data "cafe" "Paris" (mkOs 0 [])
                Hne)))) eq_refl eq_refl).
  - exact (proj1 (proj2 (proj2 (proj2
             (export_data_per_format undumpable data "cafe" "Paris"
                (mkOs 0 []) Hne)))) eq_refl eq_refl).
Defined.

(* ================================================================= *)
(** * Further properties *)

(** ** src/utils.py *)

Lemma str_app_assoc (s t u : string) : (s ++ t) ++ u = s ++ (t ++ u).
Proof. induction s as [|c s IH]; cbn; [reflexivity | now rewrite IH]. Qed.

Lemma str_concat_map_app (f : ascii -> string) (s t : string) :
  str_concat_map f (s ++ t) = str_concat_map f s ++ str_concat_map f t.
Proof.
  induction s as [|c s IH]; cbn; [reflexivity|].
  now rewrite IH, str_app_assoc.
Qed.

Lemma sanitize_char_fixed (c : ascii) :
  sanitized_char_ok c = true -> sanitize_char c = String c "".
Proof.
  destruct c as [b0 b1 b2 b3 b4 b5 b6 b7].
  destruct b0, b1, b2, b3, b4, b5, b6, b7; vm_compute;
    intros H; first [reflexivity | discriminate H].
Qed.

Lemma sanitize_filename_fixed (t : string) :
  str_forallb sanitized_char_ok t = true -> sanitize_filename t = t.
Proof.
  induction t as [|c t IH]; [reflexivity|].
  cbn [str_forallb]. intros H. apply andb_true_iff in H as [Hc Ht].
  rewrite sanitize_filename_cons, (sanitize_char_fixed c Hc), (IH Ht).
  reflexivity.
Qed.

(** X1. On strings of code points U+0000..U+00FF, [sanitize_filename] is
    idempotent: a sanitized token is left as it is by a second pass. *)
Theorem sanitize_filename_idempotent (text : string) :
  sanitize_filename (sanitize_filename text) = sanitize_filename text.
Proof.
  apply sanitize_filename_fixed, sanitize_filename_ok.
Qed.

Lemma sanitize_char_length (c : ascii) :
  (String.length (sanitize_char c) <= 1)%nat.
Proof.
  unfold sanitize_char.
  destruct (Ascii.eqb c " " || Ascii.eqb c "," || Ascii.eqb c "/");
    [cbn; lia|].
  destruct (isalnum c || Ascii.eqb c "_" || Ascii.eqb c "-"); cbn; lia.
Qed.

Lemma string_length_app (s t : string) :
  String.length (s ++ t) = (String.length s + String.length t)%nat.
Proof. induction s as [|c s IH]; cbn; [reflexivity | now rewrite IH]. Qed.

(** X2. On strings of code points U+0000..U+00FF, [sanitize_filename]
    works character by character: the token of a concatenation is the
    concatenation of the tokens, and a token is never longer than its
    input. *)
Theorem sanitize_filename_app_length :
  (forall a b : string,
      sanitize_filename (a ++ b) = sanitize_filename a ++ sanitize_filename b)
  /\ (forall text : string,
         (String.length (sanitize_filename text) <= String.length text)%nat).
Proof.
  split.
  - intros a b. rewrite !sanitize_filename_chars. apply str_concat_map_app.
  - intros text. rewrite sanitize_filename_chars.
    induction text as [|c s IH]; cbn [str_concat_map]; [cbn; lia|].
    rewrite string_length_app. pose proof (sanitize_char_length c).
    cbn [String.length]. lia.
Qed.

Lemma str_forallb_impl (p q : ascii -> bool) (s : string) :
  (forall c, p c = true -> q c = true) ->
  str_forallb p s = true -> str_forallb q s = true.
Proof.
  intros Hpq. induction s as [|c s IH]; cbn; [reflexivity|].
  intros H. apply andb_true_iff in H as [Hc Hs].
  now rewrite (Hpq c Hc), (IH Hs).
Qed.

Lemma sanitized_char_path_safe (c : ascii) :
  sanitized_char_ok c = true -> path_safe_char c = true.
Proof.
  destruct c as [b0 b1 b2 b3 b4 b5 b6 b7].
  destruct b0, b1, b2, b3, b4, b5, b6, b7; vm_compute;
    intros H; first [reflexivity | discriminate H].
Qed.

Lemma string_of_uint_path_safe (d : Decimal.uint) :
  str_forallb path_safe_char (NilEmpty.string_of_uint d) = true.
Proof. induction d; cbn; auto. Qed.

Lemma str_of_int_path_safe (z : Z) :
  str_forallb path_safe_char (str_of_int z) = true.
Proof.
  unfold str_of_int, NilZero.string_of_int, NilZero.string_of_uint.
  destruct (Z.to_int z) as [d|d]; destruct d; cbn;
    try reflexivity; apply string_of_uint_path_safe.
Qed.

(** X3. [generate_filename] reads the clock once and returns
    [<type>_<location>_<timestamp>.<extension>] with both tokens sanitized;
    when the extension holds no slash, backslash, NUL or space, neither
    does the file name, whatever the place type and the location are. *)
Theorem generate_filename_path_safe (env : os_env)
  (place_type location file_extension : string) (st : os_state) :
  let r := generate_filename env place_type location file_extension st in
  fst r = sanitize_filename place_type ++ "_" ++ sanitize_filename location
          ++ "_" ++ str_of_int (clock env (clock_reads st))
          ++ "." ++ file_extension
  /\ snd r = mkOs (S (clock_reads st)) (os_trace st)
  /\ str_forallb path_safe_char (fst r)
     = str_forallb path_safe_char file_extension.
Proof.
  cbn zeta. unfold generate_filename. cbn [fst snd].
  split; [reflexivity|]. split; [reflexivity|].
  assert (Hs : forall t, str_forallb path_safe_char (sanitize_filename t)
                         = true).
  { intros t. apply (str_forallb_impl sanitized_char_ok);
      [exact sanitized_char_path_safe | apply sanitize_filename_ok]. }
  rewrite !str_forallb_app, !Hs, str_of_int_path_safe. reflexivity.
Qed.

Lemma format_phone_number_str (s : string) :
  format_phone_number (PStr s) =
  Ok (PStr (if str_startswith s "+" then s else without_separators s)).
Proof.
  unfold format_phone_number.
  destruct s as [|c s]; [reflexivity|].
  cbn [truthy negb String.eqb].
  rewrite strip_separators_filter.
  destruct (str_startswith (String c s) "+"); reflexivity.
Qed.

Lemma without_separators_idempotent (s : string) :
  without_separators (without_separators s) = without_separators s.
Proof.
  unfold without_separators. rewrite str_filter_filter.
  apply str_filter_ext. intros c. now rewrite andb_diag.
Qed.

(** X4. [format_phone_number] is idempotent on strings: formatting a
    formatted number changes nothing. *)
Theorem format_phone_number_idempotent (s : string) :
  (r <- format_phone_number (PStr s) ;; format_phone_number r)
  = format_phone_number (PStr s).
Proof.
  rewrite format_phone_number_str. cbn [bind].
  rewrite format_phone_number_str.
  destruct (str_startswith s "+") eqn:E.
  - now rewrite E.
  - destruct (str_startswith (without_separators s) "+");
      [reflexivity | now rewrite without_separators_idempotent].
Qed.

(** ** src/data_processor.py: extract_place_data *)

Lemma bind_ok {A B : Type} (m : result A) (k : A -> result B) (b : B) :
  bind m k = Ok b -> exists a, m = Ok a /\ k a = Ok b.
Proof. destruct m as [a|e]; cbn; [eauto | discriminate]. Qed.

Ltac bind_step :=
  match goal with
  | H : bind _ _ = Ok _ |- _ =>
      apply bind_ok in H; destruct H as (? & _ & H); cbv beta in H
  | H : (if ?b then _ else _) = Ok _ |- _ => destruct b
  | H : Ok _ = Ok _ |- _ => injection H as <-
  end.

(** X5. Whatever the search result and the detail object are, a record
    [extract_place_data] returns is a dict with exactly the nine output
    keys, in the same order: a field that is missing is present with a
    default, never absent. *)
Theorem extract_place_data_schema (place_basic place_details o : value) :
  extract_place_data place_basic place_details = Ok o ->
  exists rec, o = PDict rec /\ dict_keys rec = OUTPUT_FIELDS.
Proof.
  unfold extract_place_data. intros H. cbv zeta in H.
  repeat bind_step; eexists; split; reflexivity.
Qed.

(** The schema theorem at the running example. *)
Lemma extract_place_data_schema_witness :
  extract_place_data (PDict example_basic) (PDict example_detail)
  = Ok (PDict (merged_record example_basic
                 [("lat", PInt 48); ("lng", PInt 2)] example_detail
                 [("lat", PInt 49); ("lng", PInt 3)] (PStr "5551234567")))
  /\ exists rec,
       PDict (merged_record example_basic
                [("lat", PInt 48); ("lng", PInt 2)] example_detail
                [("lat", PInt 49); ("lng", PInt 3)] (PStr "5551234567"))
       = PDict rec
       /\ dict_keys rec = OUTPUT_FIELDS.
Proof.
  split; [reflexivity|].
  exact (extract_place_data_schema (PDict example_basic)
           (PDict example_detail) _ eq_refl).
Defined.

(** X6. A detail object that is falsy (an empty object, [None], an empty
    string, zero) is the same as no detail object, for every search
    result. *)
Theorem extract_place_data_falsy_detail (place_basic place_details : value) :
  truthy place_details = false ->
  extract_place_data place_basic place_details
  = extract_place_data place_basic PNone.
Proof.
  intros H. unfold extract_place_data.
  destruct place_basic as [| | | | | |bd]; try reflexivity.
  rewrite !py_get_dict. cbn [bind].
  destruct (py_get (get_or "geometry" bd (PDict [])) "location" (PDict []))
    as [loc|e]; [|reflexivity].
  cbn [bind].
  destruct (py_get loc "lat" (PStr "")) as [lat|e]; [|reflexivity].
  cbn [bind].
  destruct (py_get loc "lng" (PStr "")) as [lng|e]; [|reflexivity].
  cbn [bind]. rewrite H. reflexivity.
Qed.

(** The falsy-detail theorem at the empty detail object. *)
Lemma extract_place_data_falsy_detail_witness :
  truthy (PDict []) = false
  /\ extract_place_data (PDict example_basic) (PDict [])
     = extract_place_data (PDict example_basic) PNone.
Proof.
  split; [reflexivity|].
  exact (extract_place_data_falsy_detail (PDict example_basic) (PDict [])
           eq_refl).
Defined.

Lemma location_of_none (rec : dict) :
  location_of rec = None ->
  py_get (get_or "geometry" rec (PDict [])) "location" (PDict [])
  = Raise AttributeError
  \/ exists l,
       py_get (get_or "geometry" rec (PDict [])) "location" (PDict [])
       = Ok l
       /\ is_dict l = false.
Proof.
  unfold location_of, get_or.
  destruct (dict_lookup "geometry" rec) as [g|]; [|discriminate].
  destruct g as [| | | | | |gd]; auto.
  cbn [py_get].
  destruct (dict_lookup "location" gd) as [l|]; [|discriminate].
  intros H. right. exists l. split; [reflexivity|].
  destruct l; try reflexivity; discriminate.
Qed.

(** X7. A search result whose [geometry] is present and is not an object
    (JSON [null], say), or whose [location] is present and is not an
    object, makes [extract_place_data] raise [AttributeError], with or
    without a detail object. *)
Theorem extract_place_data_bad_geometry (bd : dict) (place_details : value) :
  location_of bd = None ->
  extract_place_data (PDict bd) place_details = Raise AttributeError.
Proof.
  intros H. unfold extract_place_data.
  rewrite !py_get_dict. cbn [bind].
  destruct (location_of_none bd H) as [E|(l & E & Hl)]; rewrite E;
    [reflexivity|].
  cbn [bind]. destruct l; try reflexivity; discriminate.
Qed.

(** The geometry theorem at a search result with a null geometry. *)
Lemma extract_place_data_bad_geometry_witness :
  location_of [("place_id", PStr "a"); ("geometry", PNone)] = None
  /\ extract_place_data
       (PDict [("place_id", PStr "a"); ("geometry", PNone)]) PNone
     = Raise AttributeError.
Proof.
  split; [reflexivity|].
  exact (extract_place_data_bad_geometry
           [("place_id", PStr "a"); ("geometry", PNone)] PNone eq_refl).
Defined.

(** X8. A detail record whose [formatted_phone_number] is truthy and is not
    a string (a number, say) makes [extract_place_data] raise
    [AttributeError]: [format_phone_number] calls [replace] on it. *)
Theorem extract_place_data_bad_phone (bd bl dd : dict) (phone : value) :
  location_of bd = Some bl ->
  dict_lookup "formatted_phone_number" dd = Some phone ->
  truthy phone = true ->
  is_str phone = false ->
  extract_place_data (PDict bd) (PDict dd) = Raise AttributeError.
Proof.
  intros Hb Hp Ht Hs.
  destruct (location_of_get _ _ Hb) as (g & Hg & Hl).
  assert (Hdd : truthy (PDict dd) = true).
  { destruct dd; [discriminate Hp | reflexivity]. }
  unfold extract_place_data.
  rewrite !py_get_dict in *. cbn [bind].
  injection Hg as <-. rewrite Hl. cbn [bind].
  rewrite !py_get_dict. cbn [bind]. rewrite Hdd.
  cbn -[py_get get_or format_phone_number].
  rewrite !py_get_dict. cbn [bind].
  unfold get_or at 1. rewrite Hp.
  unfold format_phone_number. rewrite Ht.
  destruct phone; try reflexivity; discriminate.
Qed.

(** The phone theorem at a detail record whose phone number is a number. *)
Lemma extract_place_data_bad_phone_witness :
  location_of example_basic = Some [("lat", PInt 48); ("lng", PInt 2)]
  /\ dict_lookup "formatted_phone_number"
       [("formatted_phone_number", PInt 5551234567)]
     = Some (PInt 5551234567)
  /\ truthy (PInt 5551234567) = true
  /\ is_str (PInt 5551234567) = false
  /\ extract_place_data (PDict example_basic)
       (PDict [("formatted_phone_number", PInt 5551234567)])
     = Raise AttributeError.
Proof.
  do 4 (split; [reflexivity|]).
  exact (extract_place_data_bad_phone example_basic
           [("lat", PInt 48); ("lng", PInt 2)]
           [("formatted_phone_number", PInt 5551234567)] (PInt 5551234567)
           eq_refl eq_refl eq_refl eq_refl).
Defined.

(** ** src/scraper.py: search_places *)

Section Pagination.

Variables (api_key place_type location : string) (radius : Z).

Local Abbreviation loop :=
  (search_loop api_key place_type location radius).
Local Abbreviation prologue :=
  (page_prologue api_key place_type location radius).
Local Abbreviation req :=
  (search_request api_key place_type location radius).

Lemma count_sleeps_app (xs ys : list event) :
  count_sleeps (xs ++ ys) = (count_sleeps xs + count_sleeps ys)%nat.
Proof. unfold count_sleeps. now rewrite filter_app, length_app. Qed.

Lemma sent_requests_app (xs ys : list event) :
  sent_requests (xs ++ ys) = (sent_requests xs ++ sent_requests ys)%list.
Proof. apply flat_map_app. Qed.

Lemma prologue_counts (token : value) :
  count_requests (prologue token) = 1%nat
  /\ count_sleeps (prologue token) = (if truthy token then 1 else 0)%nat
  /\ sent_requests (prologue token) = [req token].
Proof.
  unfold page_prologue. destruct (truthy token); repeat split.
Qed.

Lemma pages_items_cons (o : http_outcome) (pages : list http_outcome) :
  pages_items (o :: pages)
  = (match read_page o with
     | Some (items, _) => items
     | None => []
     end ++ pages_items pages)%list.
Proof. reflexivity. Qed.

(** Pages that continue, then a page read with status OK and no token. *)
Lemma search_loop_complete (o : http_outcome) (rest : list http_outcome)
  (items : list value) (tok : value) (pre : list http_outcome) :
  read_page o = Some (items, tok) ->
  truthy tok = false ->
  forallb continues pre = true ->
  forall (places : list value) (token : value) (tr : list event),
  exists new,
    loop (pre ++ o :: rest) places token tr
    = (Ok (places ++ pages_items pre ++ items)%list,
       mkWorld rest (tr ++ new))
    /\ sent_requests new = map req (token :: map page_token pre)
    /\ count_sleeps new
       = ((if truthy token then 1 else 0) + List.length pre)%nat.
Proof.
  intros Er Etok. induction pre as [|p pre IH]; intros Hpre places token tr.
  - cbn [app]. rewrite search_loop_cons.
    pose proof (search_page_cases place_type location o places) as Hp.
    rewrite Er in Hp. cbv zeta in Hp. rewrite Hp, Etok.
    eexists. split; [reflexivity|].
    destruct (prologue_counts token) as (_ & Hs & Hr).
    rewrite sent_requests_app, count_sleeps_app, Hs, Hr. cbn.
    split; [reflexivity | lia].
  - cbn in Hpre. apply andb_true_iff in Hpre as [Hp0 Hpre].
    cbn [app]. rewrite search_loop_cons.
    pose proof (search_page_cases place_type location p places) as Hp.
    unfold continues in Hp0.
    destruct (read_page p) as [[items_p tok_p]|] eqn:Erp; [|discriminate].
    assert (Hpt : page_token p = tok_p)
      by (unfold page_token; now rewrite Erp).
    cbv zeta in Hp. rewrite Hp, Hp0.
    destruct (IH Hpre (places ++ items_p)%list tok_p
                (tr ++ prologue token ++
                 [EvPrint (MsgRetrieved (List.length items_p)
                             (List.length (places ++ items_p)))])%list)
      as (new & Hloop & Hr & Hs).
    rewrite Hloop.
    exists (prologue token ++
            [EvPrint (MsgRetrieved (List.length items_p)
                        (List.length (places ++ items_p)))] ++ new)%list.
    split.
    + rewrite pages_items_cons, Erp, <- !app_assoc. reflexivity.
    + destruct (prologue_counts token) as (_ & Hs0 & Hr0).
      rewrite !sent_requests_app, !count_sleeps_app, Hs0, Hr0, Hr, Hs, Hp0.
      cbn [map]. rewrite Hpt. cbn. split; [reflexivity | lia].
Qed.

(** X10. When pages 1..k-1 are read and continue and page k is read with
    status OK and carries no token, [search_places] returns the records of
    all k pages in order and leaves the later outcomes pending; the first
    request carries no page token, each later request carries the token of
    the page before it, and there is exactly one pause per continuation. *)
Theorem search_places_complete_pagination
  (w : world) (pre : list http_outcome) (o : http_outcome)
  (rest : list http_outcome) (items : list value) (tok : value) :
  pending w = (pre ++ o :: rest)%list ->
  forallb continues pre = true ->
  read_page o = Some (items, tok) ->
  truthy tok = false ->
  exists new,
    search_places api_key place_type location radius w
    = (Ok (pages_items pre ++ items)%list, mkWorld rest (trace w ++ new))
    /\ sent_requests new = map req (PNone :: map page_token pre)
    /\ count_sleeps new = List.length pre.
Proof.
  intros Hw Hpre Er Etok. unfold search_places. rewrite Hw.
  destruct (search_loop_complete o rest items tok pre Er Etok Hpre
              [] PNone (trace w)) as (new & Hloop & Hr & Hs).
  exists new. auto.
Qed.

(** Pages that continue, then the first page that does not. *)
Lemma search_loop_stops (o : http_outcome) (rest pre : list http_outcome) :
  continues o = false ->
  forallb continues pre = true ->
  forall (places : list value) (token : value) (tr : list event),
  exists new,
    loop (pre ++ o :: rest) places token tr
    = (Ok (places ++ pages_items (pre ++ [o]))%list,
       mkWorld rest (tr ++ new))
    /\ sent_requests new = map req (token :: map page_token pre)
    /\ count_sleeps new
       = ((if truthy token then 1 else 0) + List.length pre)%nat.
Proof.
  intros Ho. induction pre as [|p pre IH]; intros Hpre places token tr.
  - cbn [app]. rewrite search_loop_cons, pages_items_cons.
    pose proof (search_page_cases place_type location o places) as Hp.
    destruct (prologue_counts token) as (_ & Hs & Hr).
    unfold continues in Ho.
    destruct (read_page o) as [[items tok]|] eqn:Er.
    + cbv zeta in Hp. rewrite Hp, Ho.
      exists (prologue token ++
              [EvPrint (MsgRetrieved (List.length items)
                          (List.length (places ++ items)))])%list.
      cbn [pages_items flat_map]. rewrite app_nil_r.
      split; [reflexivity|].
      rewrite sent_requests_app, count_sleeps_app, Hs, Hr. cbn.
      split; [reflexivity | lia].
    + destruct Hp as (m & Hp & _). rewrite Hp.
      exists (prologue token ++ [EvPrint m])%list.
      cbn [pages_items flat_map app]. rewrite app_nil_r.
      split; [reflexivity|].
      rewrite sent_requests_app, count_sleeps_app, Hs, Hr. cbn.
      split; [reflexivity | lia].
  - cbn in Hpre. apply andb_true_iff in Hpre as [Hp0 Hpre].
    cbn [app]. rewrite search_loop_cons.
    pose proof (search_page_cases place_type location p places) as Hp.
    unfold continues in Hp0.
    destruct (read_page p) as [[items_p tok_p]|] eqn:Erp; [|discriminate].
    assert (Hpt : page_token p = tok_p)
      by (unfold page_token; now rewrite Erp).
    cbv zeta in Hp. rewrite Hp, Hp0.
    destruct (IH Hpre (places ++ items_p)%list tok_p
                (tr ++ prologue token ++
                 [EvPrint (MsgRetrieved (List.length items_p)
                             (List.length (places ++ items_p)))])%list)
      as (new & Hloop & Hr & Hs).
    rewrite Hloop.
    exists (prologue token ++
            [EvPrint (MsgRetrieved (List.length items_p)
                        (List.length (places ++ items_p)))] ++ new)%list.
    split.
    + rewrite pages_items_cons, Erp, <- !app_assoc. reflexivity.
    + destruct (prologue_counts token) as (_ & Hs0 & Hr0).
      rewrite !sent_requests_app, !count_sleeps_app, Hs0, Hr0, Hr, Hs, Hp0.
      cbn [map]. rewrite Hpt. cbn. split; [reflexivity | lia].
Qed.

(** X9. When the provider's answers hold a first page that does not
    continue (anything but a page read with status OK and a truthy token:
    a transport failure, a document that is not an object or has no
    status, a rejected status, ZERO_RESULTS, results that cannot be
    iterated, a page without token), [search_places] stops at that page and
    raises nothing: it returns the records of the pages read up to and
    including it, leaves the later answers unrequested, has sent one
    request per page, each carrying the token of the page before it, and
    has paused once per continuation. *)
Theorem search_places_stops_at_first_final_page
  (w : world) (pre : list http_outcome) (o : http_outcome)
  (rest : list http_outcome) :
  pending w = (pre ++ o :: rest)%list ->
  forallb continues pre = true ->
  continues o = false ->
  exists new,
    search_places api_key place_type location radius w
    = (Ok (pages_items (pre ++ [o])), mkWorld rest (trace w ++ new))
    /\ sent_requests new = map req (PNone :: map page_token pre)
    /\ count_sleeps new = List.length pre.
Proof.
  intros Hw Hpre Ho. unfold search_places. rewrite Hw.
  destruct (search_loop_stops o rest pre Ho Hpre [] PNone (trace w))
    as (new & Hloop & Hr & Hs).
  exists new. auto.
Qed.

End Pagination.

(** Complete pagination on two pages: both pages' records, one pause. *)
Lemma search_places_complete_pagination_witness :
  let first := page "OK" [example_place "a"; example_place "b"] (PStr "t1") in
  let second := page "OK" [example_place "c"] PNone in
  let w := mkWorld [first; second] [] in
  pending w = ([first] ++ second :: [])%list
  /\ forallb continues [first] = true
  /\ read_page second = Some ([example_place "c"], PNone)
  /\ truthy PNone = false
  /\ exists new,
       search_places "key" "cafe" "Paris" 50000 w
       = (Ok [example_place "a"; example_place "b"; example_place "c"],
          mkWorld [] new)
       /\ count_sleeps new = 1%nat.
Proof.
  intros first second w. do 4 (split; [reflexivity|]).
  destruct (search_places_complete_pagination "key" "cafe" "Paris" 50000 w
              [first] second [] [example_place "c"] PNone
              eq_refl eq_refl eq_refl eq_refl) as (new & H & _ & Hs).
  exists new. split; assumption.
Defined.

(** ** src/scraper.py: scrape_places *)

Lemma details_of_outcome_prints (place_id : value) (o : http_outcome) :
  exists out,
    details_of_outcome place_id o = Ok (detail_of o, out)
    /\ forallb is_print out = true.
Proof.
  unfold details_of_outcome, detail_of, detail_status_ok.
  destruct o as [| | |data]; cbn; try (eexists; split; reflexivity).
  destruct data as [| | | | | |d]; cbn; try (eexists; split; reflexivity).
  destruct (dict_lookup "status" d) as [s|]; cbn;
    [|eexists; split; reflexivity].
  unfold py_ne_str. destruct (py_eq_str s "OK"); cbn.
  - unfold get_or. destruct (dict_lookup "result" d); cbn;
      eexists; split; reflexivity.
  - eexists; split; reflexivity.
Qed.

Lemma prints_silent (out : list event) :
  forallb is_print out = true ->
  sent_requests out = [] /\ count_sleeps out = 0%nat
  /\ count_requests out = 0%nat.
Proof.
  induction out as [|e out IH]; [repeat split|].
  cbn [forallb]. intros H. apply andb_true_iff in H as [He Hout].
  destruct (IH Hout) as (H1 & H2 & H3).
  destruct e; try discriminate. repeat split; assumption.
Qed.

Lemma fetch_details_step_true (api_key : string) (place : value)
  (w : world) :
  basic_shaped place = true ->
  exists out,
    fetch_details_step api_key true place w
    = (Ok (detail_of (next_outcome (pending w))),
       mkWorld (tl (pending w))
         (trace w ++
          EvGet (details_request api_key (place_id_of place))
          :: out ++ [EvSleep REQUEST_DELAY]))
    /\ forallb is_print out = true.
Proof.
  intros Hp. unfold fetch_details_step, basic_shaped, place_id_of in *.
  destruct place as [| | | | | |bd]; try discriminate.
  destruct (location_of bd); [|discriminate].
  cbn [py_getitem]. unfold get_or.
  destruct (dict_lookup "place_id" bd) as [pid|]; [|discriminate].
  unfold get_place_details, http_get.
  destruct (details_of_outcome_prints pid (next_outcome (pending w)))
    as (out & -> & Hout).
  exists out. split; [|assumption].
  unfold log. cbn [pending trace]. rewrite <- !app_assoc. reflexivity.
Qed.

(** A run of shaped search results is normalised one by one: the loop goes
    on with the rest, having looked every one of them up in order when
    details are fetched, and having sent nothing otherwise. *)
Lemma scrape_loop_prefix (api_key : string) (fetch_details : bool) (n : nat)
  (pre rest : list value) :
  forall (i : nat) (results : list value) (w : world),
    forallb basic_shaped pre = true ->
    (fetch_details = true ->
     forallb (fun o => detail_shaped (detail_of o)) (pending w) = true) ->
    exists outs new,
      scrape_loop api_key fetch_details n i (pre ++ rest) results w
      = scrape_loop api_key fetch_details n (i + List.length pre) rest
          (results ++ outs)
          (mkWorld
             (if fetch_details then skipn (List.length pre) (pending w)
              else pending w)
             (trace w ++ new))
      /\ List.length outs = List.length pre
      /\ sent_requests new
         = (if fetch_details
            then map (fun p => details_request api_key (place_id_of p)) pre
            else [])
      /\ count_sleeps new
         = (if fetch_details then List.length pre else 0%nat).
Proof.
  induction pre as [|place pre IH]; intros i results w Hshape Hscript.
  - exists [], []. rewrite !app_nil_r, Nat.add_0_r. cbn [app List.length].
    destruct w as [pend tr]. destruct fetch_details; repeat split.
  - cbn in Hshape. apply andb_true_iff in Hshape as [Hplace Hpre].
    cbn [app scrape_loop].
    assert (Hname : exists name,
               py_get place "name" (PStr "Unknown") = Ok name).
    { destruct place; try discriminate. rewrite py_get_dict. eauto. }
    destruct Hname as (name & ->).
    destruct (extract_place_data_shaped place
                (detail_used fetch_details (pending w) 0) Hplace
                (detail_used_shaped fetch_details _ Hscript))
      as (o & Ho & _).
    replace (i + List.length (place :: pre))%nat
      with (S i + List.length pre)%nat by (cbn; lia).
    destruct fetch_details.
    + destruct (fetch_details_step_true api_key place
                  (log [EvPrint (MsgProcessing i n name)] w) Hplace)
        as (out & -> & Hout).
      cbn [log pending trace]. unfold detail_used in Ho. cbn [skipn] in Ho.
      rewrite Ho.
      destruct (prints_silent out Hout) as (Hr & Hs & _).
      match goal with
      | |- context [scrape_loop _ _ _ _ _ _ ?w1] =>
          destruct (IH (S i) (results ++ [o])%list w1 Hpre)
            as (outs & new & Hloop & Hlen & Hreq & Hsl)
      end.
      { intros _. cbn [pending]. apply forallb_tl, Hscript. reflexivity. }
      rewrite Hloop. cbn [pending trace].
      exists (o :: outs),
        ([EvPrint (MsgProcessing i n name)]
         ++ [EvGet (details_request api_key (place_id_of place))]
         ++ out ++ [EvSleep REQUEST_DELAY] ++ new)%list.
      split; [|split; [|split]].
      * cbn [List.length]. rewrite skipn_S_tl, <- !app_assoc.
        cbn [app]. rewrite <- !app_assoc. cbn [app]. reflexivity.
      * cbn. now rewrite Hlen.
      * rewrite !sent_requests_app, Hr, Hreq. reflexivity.
      * rewrite !count_sleeps_app, Hs, Hsl. cbn. lia.
    + cbn [fetch_details_step]. unfold detail_used in Ho. rewrite Ho.
      destruct (IH (S i) (results ++ [o])%list
                  (log [EvPrint (MsgProcessing i n name)] w) Hpre)
        as (outs & new & Hloop & Hlen & Hreq & Hsl);
        [discriminate|].
      rewrite Hloop. cbn [log pending trace].
      exists (o :: outs), ([EvPrint (MsgProcessing i n name)] ++ new)%list.
      split; [|split; [|split]].
      * rewrite <- !app_assoc. cbn [app]. reflexivity.
      * cbn. now rewrite Hlen.
      * rewrite !sent_requests_app, Hreq. reflexivity.
      * rewrite !count_sleeps_app, Hsl. reflexivity.
Qed.

(** X11. With detail fetching, on search results and detail responses of
    the provider's shape, [scrape_places] looks every search result up
    exactly once, in the order of the search results and by its own
    [place_id], consumes one outcome per lookup and pauses once after each
    lookup. *)
Theorem scrape_places_detail_requests
  (api_key place_type location : string) (radius : Z)
  (w : world) (places : list value) (w1 : world) :
  search_places api_key place_type location radius
    (log [EvPrint (MsgSearching place_type location)] w)
  = (Ok places, w1) ->
  forallb basic_shaped places = true ->
  forallb (fun o => detail_shaped (detail_of o)) (pending w1) = true ->
  exists out new,
    scrape_places api_key place_type location true radius w
    = (Ok out,
       mkWorld (skipn (List.length places) (pending w1)) (trace w1 ++ new))
    /\ sent_requests new
       = map (fun p => details_request api_key (place_id_of p)) places
    /\ count_sleeps new = List.length places.
Proof.
  intros Hsearch Hshape Hscript. unfold scrape_places. rewrite Hsearch.
  destruct places as [|p0 places].
  - exists [], []. destruct w1 as [pend tr]. cbn. rewrite app_nil_r.
    repeat split.
  - cbn [truthy negb].
    destruct (scrape_loop_prefix api_key true
                (List.length (p0 :: places)) (p0 :: places) [] 1 [] w1
                Hshape (fun _ => Hscript))
      as (outs & new & Hloop & _ & Hreq & Hsl).
    rewrite app_nil_r in Hloop. rewrite Hloop. cbn [scrape_loop app].
    exists outs, new. auto.
Qed.

(** The lookup theorem on two search results. *)
Lemma scrape_places_detail_requests_witness :
  let first := page "OK" [example_place "a"; example_place "b"] PNone in
  let w := mkWorld [first; ConnFailure; example_detail_response] [] in
  let places := [example_place "a"; example_place "b"] in
  forallb basic_shaped places = true
  /\ forallb (fun o => detail_shaped (detail_of o))
       [ConnFailure; example_detail_response] = true
  /\ exists out new,
       snd (scrape_places "key" "cafe" "Paris" true 50000 w)
       = mkWorld []
           (trace (snd (search_places "key" "cafe" "Paris" 50000
                          (log [EvPrint (MsgSearching "cafe" "Paris")] w)))
            ++ new)
       /\ fst (scrape_places "key" "cafe" "Paris" true 50000 w) = Ok out
       /\ sent_requests new
          = [ details_request "key" (PStr "a");
              details_request "key" (PStr "b") ].
Proof.
  intros first w places. do 2 (split; [reflexivity|]).
  destruct (scrape_places_detail_requests "key" "cafe" "Paris" 50000 w
              places
              (snd (search_places "key" "cafe" "Paris" 50000
                      (log [EvPrint (MsgSearching "cafe" "Paris")] w)))
              eq_refl eq_refl eq_refl) as (out & new & H & Hreq & _).
  exists out, new. rewrite H. repeat split. exact Hreq.
Defined.

Lemma scrape_loop_no_details (api_key : string) (n : nat)
  (todo : list value) :
  forall (i : nat) (results : list value) (w : world),
    let r := scrape_loop api_key false n i todo results w in
    pending (snd r) = pending w
    /\ exists new,
         trace (snd r) = (trace w ++ new)%list
         /\ forallb is_print new = true.
Proof.
  induction todo as [|place todo IH]; intros i results w; cbn zeta.
  - cbn. split; [reflexivity|]. exists []. now rewrite app_nil_r.
  - cbn [scrape_loop fetch_details_step].
    destruct (py_get place "name" (PStr "Unknown")) as [name|e].
    + destruct (extract_place_data place PNone) as [o|e].
      * destruct (IH (S i) (results ++ [o])%list
                    (log [EvPrint (MsgProcessing i n name)] w))
          as (Hp & new & Ht & Hnew).
        rewrite Hp, Ht. cbn [log pending trace]. split; [reflexivity|].
        exists ([EvPrint (MsgProcessing i n name)] ++ new)%list.
        rewrite <- app_assoc. split; [reflexivity | exact Hnew].
      * cbn. split; [reflexivity|]. eexists. split; reflexivity.
    + cbn. split; [reflexivity|]. exists []. now rewrite app_nil_r.
Qed.

(** X12. Without detail fetching, [scrape_places] sends no request beyond
    those of the search, consumes no further outcome and makes no pause,
    whatever the search returned and whether normalisation succeeds or
    raises. *)
Theorem scrape_places_without_details
  (api_key place_type location : string) (radius : Z) (w : world) :
  let searched :=
    snd (search_places api_key place_type location radius
           (log [EvPrint (MsgSearching place_type location)] w)) in
  let scraped :=
    snd (scrape_places api_key place_type location false radius w) in
  pending scraped = pending searched
  /\ sent_requests (trace scraped) = sent_requests (trace searched)
  /\ count_sleeps (trace scraped) = count_sleeps (trace searched).
Proof.
  cbn zeta. unfold scrape_places.
  destruct (search_places api_key place_type location radius
              (log [EvPrint (MsgSearching place_type location)] w))
    as [[places|e] w1]; cbn [snd]; [|repeat split].
  destruct (negb (truthy (PList places))); [repeat split|].
  destruct (scrape_loop_no_details api_key (List.length places) places
              1 [] w1) as (Hp & new & Ht & Hnew).
  destruct (prints_silent new Hnew) as (Hr & Hs & _).
  rewrite Hp, Ht, sent_requests_app, count_sleeps_app, Hr, Hs.
  rewrite app_nil_r, Nat.add_0_r. repeat split.
Qed.

(** X13. With detail fetching, a search result that is an object without
    [place_id] makes [scrape_places] raise [KeyError]: the records already
    normalised are lost, the results before it have been looked up, and
    neither it nor any result after it is. *)
Theorem scrape_places_missing_place_id
  (api_key place_type location : string) (radius : Z)
  (w : world) (w1 : world) (pre : list value) (bd : dict)
  (rest : list value) :
  search_places api_key place_type location radius
    (log [EvPrint (MsgSearching place_type location)] w)
  = (Ok (pre ++ PDict bd :: rest)%list, w1) ->
  forallb basic_shaped pre = true ->
  forallb (fun o => detail_shaped (detail_of o)) (pending w1) = true ->
  dict_lookup "place_id" bd = None ->
  exists new,
    scrape_places api_key place_type location true radius w
    = (Raise (KeyError "place_id"),
       mkWorld (skipn (List.length pre) (pending w1)) (trace w1 ++ new))
    /\ sent_requests new
       = map (fun p => details_request api_key (place_id_of p)) pre.
Proof.
  intros Hsearch Hshape Hscript Hid. unfold scrape_places. rewrite Hsearch.
  assert (Hne : negb (truthy (PList (pre ++ PDict bd :: rest))) = false)
    by (destruct pre; reflexivity).
  rewrite Hne.
  destruct (scrape_loop_prefix api_key true
              (List.length (pre ++ PDict bd :: rest)) pre (PDict bd :: rest)
              1 [] w1 Hshape (fun _ => Hscript))
    as (outs & new & Hloop & _ & Hreq & _).
  rewrite Hloop. cbn [scrape_loop]. rewrite py_get_dict.
  cbn [fetch_details_step py_getitem]. rewrite Hid.
  unfold log. cbn [pending trace].
  exists (new ++
          [EvPrint
             (MsgProcessing (1 + List.length pre)
                (List.length (pre ++ PDict bd :: rest))
                (get_or "name" bd (PStr "Unknown")))])%list.
  split.
  - rewrite <- app_assoc. reflexivity.
  - rewrite sent_requests_app, Hreq. cbn. now rewrite app_nil_r.
Qed.

(** The missing-identifier theorem on a second result without [place_id]. *)
Lemma scrape_places_missing_place_id_witness :
  let bad := [("name", PStr "No id")] in
  let first := page "OK" [example_place "a"; PDict bad] PNone in
  let w := mkWorld [first; example_detail_response] [] in
  forallb basic_shaped [example_place "a"] = true
  /\ forallb (fun o => detail_shaped (detail_of o))
       [example_detail_response] = true
  /\ dict_lookup "place_id" bad = None
  /\ fst (scrape_places "key" "cafe" "Paris" true 50000 w)
     = Raise (KeyError "place_id").
Proof.
  intros bad first w. do 3 (split; [reflexivity|]).
  destruct (scrape_places_missing_place_id "key" "cafe" "Paris" 50000 w
              (snd (search_places "key" "cafe" "Paris" 50000
                      (log [EvPrint (MsgSearching "cafe" "Paris")] w)))
              [example_place "a"] bad []
              eq_refl eq_refl eq_refl eq_refl) as (new & H & _).
  rewrite H. reflexivity.
Defined.

Lemma extract_place_data_keys (place_basic place_details o : value) :
  extract_place_data place_basic place_details = Ok o -> has_schema o.
Proof.
  unfold extract_place_data, has_schema. intros H. cbv zeta in H.
  repeat bind_step; eexists; split; reflexivity.
Qed.

Lemma scrape_loop_schema (api_key : string) (fetch_details : bool) (n : nat)
  (todo : list value) :
  forall (i : nat) (results : list value) (w : world)
         (out : list value) (w' : world),
    scrape_loop api_key fetch_details n i todo results w = (Ok out, w') ->
    Forall has_schema results ->
    Forall has_schema out.
Proof.
  induction todo as [|place todo IH]; intros i results w out w' H Hres.
  - cbn in H. now injection H as <- _.
  - cbn [scrape_loop] in H.
    destruct (py_get place "name" (PStr "Unknown")) as [name|e];
      [|discriminate].
    destruct (fetch_details_step api_key fetch_details place
                (log [EvPrint (MsgProcessing i n name)] w))
      as [[d|e] w1]; [|discriminate].
    destruct (extract_place_data place d) as [o|e] eqn:Eo; [|discriminate].
    apply (IH _ _ _ _ _ H). apply Forall_app. split; [assumption|].
    constructor; [|constructor]. exact (extract_place_data_keys _ _ _ Eo).
Qed.

Lemma csv_writerows_schema (env : os_env) (rows : list value) :
  Forall has_schema rows ->
  csv_writerows env OUTPUT_FIELDS rows
  = if forallb (fun row => csv_record_ok env (csv_record OUTPUT_FIELDS row))
         rows
    then Ok tt else Raise ValueError.
Proof.
  induction 1 as [|row rows (rec & -> & Hk) _ IH]; [reflexivity|].
  cbn [csv_writerows csv_writerow py_keys bind forallb]. rewrite Hk.
  change (forallb (fun k => existsb (String.eqb k) OUTPUT_FIELDS)
            OUTPUT_FIELDS) with true.
  cbv iota.
  destruct (csv_record_ok env (csv_record OUTPUT_FIELDS (PDict rec)));
    cbn [bind andb]; [exact IH | reflexivity].
Qed.

Lemma scrape_places_rows (api_key place_type location : string)
  (fetch_details : bool) (radius : Z) (w : world) (out : list value)
  (w2 : world) :
  scrape_places api_key place_type location fetch_details radius w
  = (Ok out, w2) ->
  Forall has_schema out
  /\ (out <> [] ->
      forall env : os_env, csv_rows_ok env out = csv_content_ok env out).
Proof.
  intros H.
  assert (Hs : Forall has_schema out).
  { unfold scrape_places in H.
    destruct (search_places api_key place_type location radius
                (log [EvPrint (MsgSearching place_type location)] w))
      as [[places|e] w1]; [|discriminate].
    destruct (negb (truthy (PList places))).
    - injection H as <- _. constructor.
    - exact (scrape_loop_schema _ _ _ _ _ _ _ _ _ H (Forall_nil _)). }
  split; [exact Hs|]. intros Hne env. unfold csv_rows_ok, csv_content_ok.
  destruct out as [|row rows]; [congruence|].
  cbn [py_first bind].
  pose proof (csv_writerows_schema env _ Hs) as Hw.
  inversion Hs as [|? ? (rec & -> & Hk) _]. subst.
  cbn [py_keys bind]. rewrite Hk. unfold csv_writeheader.
  destruct (csv_record_ok env (map PStr OUTPUT_FIELDS)); cbn [bind andb];
    [|reflexivity].
  rewrite Hw.
  destruct (forallb
              (fun row => csv_record_ok env (csv_record OUTPUT_FIELDS row))
              (PDict rec :: rows)); reflexivity.
Qed.

(** X14. Whatever the provider answered, the records [scrape_places]
    returns all have exactly the nine output keys, so the key check of the
    CSV writer never rejects one: on a non-empty result [save_to_csv]
    raises nothing and succeeds exactly when the file can be written and
    the runtime can format and encode the header and every record. *)
Theorem scrape_places_csv_ready
  (api_key place_type location : string) (fetch_details : bool) (radius : Z)
  (w : world) (out : list value) (w2 : world) :
  scrape_places api_key place_type location fetch_details radius w
  = (Ok out, w2) ->
  Forall has_schema out
  /\ (out <> [] ->
      forall (env : os_env) (filename : string) (st : os_state),
        fst (save_to_csv env out filename st)
        = Ok (write_ok env filename && csv_content_ok env out)).
Proof.
  intros H.
  destruct (scrape_places_rows _ _ _ _ _ _ _ _ H) as (Hs & Hrows).
  split; [exact Hs|]. intros Hne env filename st.
  destruct (save_to_csv_cases env out filename st Hne) as (m & ->).
  cbn [fst]. now rewrite (Hrows Hne env).
Qed.

(** The CSV theorem on a run where one detail lookup fails. *)
Lemma scrape_places_csv_ready_witness :
  let first := page "OK" [example_place "a"; example_place "b"] PNone in
  let w := mkWorld [first; ConnFailure; example_detail_response] [] in
  exists out,
    fst (scrape_places "key" "cafe" "Paris" true 50000 w) = Ok out
    /\ Forall has_schema out.
Proof.
  intros first w. eexists. split; [reflexivity|].
  exact (proj1 (scrape_places_csv_ready "key" "cafe" "Paris" true 50000 w
                  _ _ eq_refl)).
Defined.

(** ** src/data_processor.py: the exporter *)

Lemma dict_lookup_set_same (k : string) (v : value) (d : dict) :
  dict_lookup k (dict_set k v d) = Some v.
Proof.
  induction d as [|[k' v'] d IH]; cbn.
  - now rewrite String.eqb_refl.
  - destruct (k =? k')%string eqn:E; cbn.
    + now rewrite String.eqb_refl.
    + now rewrite E.
Qed.

Lemma dict_lookup_set_other (k k' : string) (v : value) (d : dict) :
  k <> k' -> dict_lookup k (dict_set k' v d) = dict_lookup k d.
Proof.
  intros Hne. apply String.eqb_neq in Hne.
  induction d as [|[k0 v0] d IH]; cbn.
  - now rewrite Hne.
  - destruct (k' =? k0)%string eqn:E; cbn.
    + apply String.eqb_eq in E. subst k0. now rewrite Hne.
    + destruct (k =? k0)%string; [reflexivity | exact IH].
Qed.

Lemma dict_keys_set (k : string) (v : value) (d : dict) (k' : string) :
  In k' (dict_keys (dict_set k v d)) <-> k' = k \/ In k' (dict_keys d).
Proof.
  unfold dict_keys. induction d as [|[k0 v0] d IH]; cbn.
  - intuition.
  - destruct (k =? k0)%string eqn:E; cbn.
    + apply String.eqb_eq in E. subst k0. intuition.
    + rewrite IH. intuition.
Qed.

Lemma count_opens_app (xs ys : list os_event) :
  count_opens (xs ++ ys) = (count_opens xs + count_opens ys)%nat.
Proof. unfold count_opens. now rewrite filter_app, length_app. Qed.

Lemma save_to_csv_any (env : os_env) (data : list value)
  (filename : string) (st : os_state) :
  exists b new,
    save_to_csv env data filename st
    = (Ok b, mkOs (clock_reads st) (os_trace st ++ new))
    /\ count_opens new = (if truthy (PList data) then 1 else 0)%nat.
Proof.
  destruct data as [|row data].
  - exists false, [OsPrint MsgNoData]. split; reflexivity.
  - destruct (save_to_csv_cases env (row :: data) filename st)
      as (m & ->); [discriminate|].
    eexists. eexists. split; reflexivity.
Qed.

(** The loop of [export_data] on any list of formats. *)
Lemma export_loop_any (env : os_env) (data : list value)
  (place_type location : string) (formats : list string) :
  forall (results : dict) (st : os_state),
  exists m reads new,
    export_loop env data place_type location formats results st
    = (Ok m, mkOs reads (os_trace st ++ new))
    /\ (forall fmt,
           In fmt (dict_keys m)
           <-> In fmt (dict_keys results) \/ In fmt formats)
    /\ (forall fmt,
           fmt <> "json" -> fmt <> "csv" ->
           In fmt formats \/ dict_lookup fmt results = Some (PBool false) ->
           dict_lookup fmt m = Some (PBool false))
    /\ count_opens new = expected_opens data formats.
Proof.
  induction formats as [|fmt formats IH]; intros results st.
  - exists results, (clock_reads st), []. rewrite app_nil_r.
    destruct st. split; [reflexivity|].
    split; [intros f; cbn; tauto|].
    split; [intros f _ _ [[]|H]; exact H | reflexivity].
  - cbn [expected_opens].
    destruct (fmt =? "json")%string eqn:Ej.
    + apply String.eqb_eq in Ej. subst fmt. rewrite export_loop_json.
      unfold generate_filename. cbv beta iota zeta.
      match goal with
      | |- context [save_to_json env data ?f ?s] =>
          destruct (save_to_json_cases env data f s) as (m1 & ->);
          destruct (IH (dict_set "json"
                          (PBool (write_ok env f && json_data_ok env data))
                          results)
                      (mkOs (clock_reads s)
                         (os_trace s ++ [OsOpen f; OsPrint m1])))
            as (m & reads & new & -> & Hk & Hf & Ho)
      end.
      cbn [os_trace clock_reads] in *.
      eexists. eexists. eexists. split; [|split; [|split]].
      * rewrite <- app_assoc. reflexivity.
      * intros fmt. rewrite Hk, dict_keys_set. cbn [In]. intuition.
      * intros fmt Hnj Hnc H. apply Hf; [assumption..|].
        rewrite dict_lookup_set_other by assumption.
        destruct H as [[H|H]|H]; [congruence | auto | auto].
      * rewrite count_opens_app, Ho. reflexivity.
    + destruct (fmt =? "csv")%string eqn:Ec.
      * apply String.eqb_eq in Ec. subst fmt. rewrite export_loop_csv.
        unfold generate_filename. cbv beta iota zeta.
        match goal with
        | |- context [save_to_csv env data ?f ?s] =>
            destruct (save_to_csv_any env data f s)
              as (b & new1 & -> & Ho1);
            destruct (IH (dict_set "csv" (PBool b) results)
                        (mkOs (clock_reads s) (os_trace s ++ new1)))
              as (m & reads & new & -> & Hk & Hf & Ho)
        end.
        cbn [os_trace clock_reads] in *.
        eexists. eexists. eexists. split; [|split; [|split]].
        -- rewrite <- app_assoc. reflexivity.
        -- intros fmt. rewrite Hk, dict_keys_set. cbn [In]. intuition.
        -- intros fmt Hnj Hnc H. apply Hf; [assumption..|].
           rewrite dict_lookup_set_other by assumption.
           destruct H as [[H|H]|H]; [congruence | auto | auto].
        -- rewrite count_opens_app, Ho, Ho1. reflexivity.
      * cbn [export_loop]. rewrite Ej, Ec.
        destruct (IH (dict_set fmt (PBool false) results)
                    (os_log [OsPrint (MsgUnsupported fmt)] st))
          as (m & reads & new & -> & Hk & Hf & Ho).
        cbn [os_log os_trace] in *.
        eexists. eexists. eexists. split; [|split; [|split]].
        -- rewrite <- app_assoc. reflexivity.
        -- intros f. rewrite Hk, dict_keys_set. cbn [In]. intuition.
        -- intros f Hnj Hnc H. apply Hf; [assumption..|].
           destruct (String.eqb_spec f fmt) as [->|Hne].
           ++ right. apply dict_lookup_set_same.
           ++ rewrite dict_lookup_set_other by assumption.
              destruct H as [[H|H]|H]; [congruence | auto | auto].
        -- rewrite count_opens_app, Ho. reflexivity.
Qed.

(** X15. For any list of formats and any data, [export_data] raises
    nothing and returns a map whose keys are exactly the requested
    formats; a format other than "json" and "csv" is mapped to false; one
    file is opened per "json" and, when there is data, per "csv", and none
    for any other format. *)
Theorem export_data_any_formats (env : os_env) (data : list value)
  (place_type location : string) (formats : list string) (st : os_state) :
  exists m reads new,
    export_data env data place_type location (Some formats) st
    = (Ok m, mkOs reads (os_trace st ++ new))
    /\ (forall fmt, In fmt (dict_keys m) <-> In fmt formats)
    /\ (forall fmt,
           In fmt formats -> fmt <> "json" -> fmt <> "csv" ->
           dict_lookup fmt m = Some (PBool false))
    /\ count_opens new = expected_opens data formats.
Proof.
  unfold export_data.
  destruct (export_loop_any env data place_type location formats [] st)
    as (m & reads & new & H & Hk & Hf & Ho).
  exists m, reads, new. split; [exact H|]. split; [|split].
  - intros fmt. rewrite Hk. cbn. tauto.
  - intros fmt Hin Hnj Hnc. apply Hf; auto.
  - exact Ho.
Qed.

(** X16. With no data, [export_data] still opens and writes the JSON file
    and reports CSV as failed without opening any CSV file, although the
    CSV file name has been generated (the clock is read twice). *)
Theorem export_data_empty (env : os_env) (place_type location : string)
  (st : os_state) :
  let json_file := fst (generate_filename env place_type location "json" st) in
  exists m1,
    export_data env [] place_type location None st
    = (Ok [("json", PBool (write_ok env json_file)); ("csv", PBool false)],
       mkOs (S (S (clock_reads st)))
         (os_trace st ++
          [OsOpen json_file; OsPrint m1; OsPrint MsgNoData])).
Proof.
  cbn zeta. unfold export_data.
  rewrite export_loop_json. unfold generate_filename at 1.
  cbv beta iota zeta.
  match goal with
  | |- context [save_to_json env [] ?f ?s] =>
      destruct (save_to_json_cases env [] f s) as (m1 & ->)
  end.
  unfold json_data_ok. cbn [forallb]. rewrite andb_true_r.
  rewrite export_loop_csv. unfold generate_filename at 1.
  cbv beta iota zeta. cbn [clock_reads os_trace].
  unfold save_to_csv. cbn [truthy negb os_log clock_reads os_trace].
  cbn [export_loop dict_set String.eqb Ascii.eqb Bool.eqb].
  exists m1. unfold generate_filename, os_log.
  cbn [fst clock_reads os_trace].
  rewrite <- ?app_assoc. reflexivity.
Qed.

(** ** src/utils.py: validate_api_key *)

Lemma validate_api_key_cases (api_key : string) (probe : result value) :
  api_key <> "" ->
  exists out,
    validate_api_key api_key probe
    = (Ok (probe_accepted probe),
       AppProbe (validation_request api_key) :: out)
    /\ count_probes out = 0%nat.
Proof.
  intros Hk. unfold validate_api_key, probe_accepted, rejecting_status.
  apply String.eqb_neq in Hk. cbn [truthy]. rewrite Hk. cbn [negb].
  destruct probe as [data|e]; cbn [bind try_except find fst snd].
  - destruct data as [| | | | | |d]; cbn;
      try (eexists; split; reflexivity).
    destruct (dict_lookup "status" d) as [s|]; cbn;
      [|eexists; split; reflexivity].
    destruct (py_eq_str s "REQUEST_DENIED"); cbn;
      [eexists; split; reflexivity|].
    destruct (py_eq_str s "OVER_QUERY_LIMIT"); cbn;
      [eexists; split; reflexivity|].
    destruct (py_eq_str s "OK" || py_eq_str s "ZERO_RESULTS"); cbn;
      eexists; split; reflexivity.
  - rewrite is_Exception_all. cbn. eexists; split; reflexivity.
Qed.

(** X17. [validate_api_key] refuses an empty key without sending anything.
    For any other key it sends exactly one probe, raises nothing, and
    accepts the key exactly when the probe came back as an object whose
    status is neither REQUEST_DENIED nor OVER_QUERY_LIMIT: any other
    status, known or not, string or not, is accepted, and a failed request
    or a document without status is refused. *)
Theorem validate_api_key_verdict (api_key : string) (probe : result value) :
  fst (validate_api_key api_key probe)
  = Ok (negb (api_key =? "")%string && probe_accepted probe)
  /\ count_probes (snd (validate_api_key api_key probe))
     = (if (api_key =? "")%string then 0 else 1)%nat.
Proof.
  destruct (String.eqb_spec api_key "") as [->|Hk].
  - split; reflexivity.
  - destruct (validate_api_key_cases api_key probe Hk) as (out & -> & Ho).
    cbn [fst snd negb andb]. split; [reflexivity|].
    unfold count_probes in *. cbn. now rewrite Ho.
Qed.

(** ** places_scraper.py: main *)

Lemma export_data_default_returns (env : os_env) (data : list value)
  (place_type location : string) (st : os_state) :
  exists m st',
    export_data env data place_type location None st = (Ok m, st').
Proof.
  unfold export_data.
  destruct (export_loop_any env data place_type location ["json"; "csv"]
              [] st) as (m & reads & new & H & _).
  rewrite H. eauto.
Qed.

Lemma main_unusable_key (key : option string) (probe : result value)
  (env : os_env) (w : world) (st : os_state) :
  key_usable key probe = false ->
  exists evs,
    main key probe env w st = (Ok tt, (evs, w, st))
    /\ count_probes evs
       = match key with
         | Some k => if (k =? "")%string then 0%nat else 1%nat
         | None => 0%nat
         end.
Proof.
  unfold key_usable, main. destruct key as [k|];
    [|intros _; eexists; split; reflexivity].
  cbn [truthy]. destruct (String.eqb_spec k "") as [->|Hk];
    [intros _; eexists; split; reflexivity|].
  cbn [negb andb]. intros Hp.
  destruct (validate_api_key_cases k probe Hk) as (out & -> & Ho).
  rewrite Hp. cbn [negb]. eexists. split; [reflexivity|].
  unfold count_probes in *. cbn. now rewrite Ho.
Qed.

(** X18. [main] does nothing when the key is missing or empty, or when the
    validation refuses it: no search request is sent, no file is opened and
    nothing is raised; the validation probe is the only request, and it is
    not sent for a missing or empty key. *)
Theorem main_stops_without_usable_key (key : option string)
  (probe : result value) (env : os_env) (w : world) (st : os_state) :
  key_usable key probe = false ->
  exists evs,
    main key probe env w st = (Ok tt, (evs, w, st))
    /\ count_probes evs
       = match key with
         | Some k => if (k =? "")%string then 0%nat else 1%nat
         | None => 0%nat
         end.
Proof. exact (main_unusable_key key probe env w st). Qed.

(** The gating theorem on a key the provider denies. *)
Lemma main_stops_without_usable_key_witness :
  let probe := Ok (PDict [("status", PStr "REQUEST_DENIED")]) in
  let w := mkWorld [page "OK" [example_place "a"] PNone] [] in
  key_usable (Some "key") probe = false
  /\ exists evs,
       main (Some "key") probe (plain_env (fun _ => 0) (fun _ => true)) w
         (mkOs 0 [])
       = (Ok tt, (evs, w, mkOs 0 [])).
Proof.
  intros probe w. split; [reflexivity|].
  destruct (main_stops_without_usable_key (Some "key") probe
              (plain_env (fun _ => 0) (fun _ => true)) w (mkOs 0 []) eq_refl)
    as (evs & H & _).
  exists evs. exact H.
Defined.

Lemma main_usable_key (k : string) (probe : result value) (env : os_env)
  (w : world) (st : os_state) :
  key_usable (Some k) probe = true ->
  exists out,
    main (Some k) probe env w st
    = (let evs :=
         (AppPrint MsgValidating
          :: (AppProbe (validation_request k) :: out)
          ++ [AppPrint MsgValidated])%list in
       let '(r, w) :=
         scrape_places k DEFAULT_PLACE_TYPE DEFAULT_LOCATION
           DEFAULT_FETCH_DETAILS DEFAULT_RADIUS w in
       let '(body, st) :=
         match r with
         | Raise e => (Raise e, st)
         | Ok results =>
             if truthy (PList results) then
               match export_data env results DEFAULT_PLACE_TYPE
                       DEFAULT_LOCATION None st
               with
               | (Raise e, st) => (Raise e, st)
               | (Ok export_results, st) =>
                   (Ok ([ AppPrint MsgCompleted;
                          AppPrint (MsgFound (List.length results)
                                      DEFAULT_PLACE_TYPE DEFAULT_LOCATION) ]
                        ++ export_report export_results)%list, st)
               end
             else (Ok [AppPrint MsgNoResultsFound], st)
         end in
       match
         try_except body
           [ (is_KeyboardInterrupt, fun _ => Ok [AppPrint MsgInterrupted]);
             (is_Exception, fun e => Ok [AppPrint (MsgErrorOccurred e)]) ]
       with
       | Ok out => (Ok tt, ((evs ++ out)%list, w, st))
       | Raise e => (Raise e, (evs, w, st))
       end).
Proof.
  unfold key_usable. intros H. apply andb_true_iff in H as [Hk Hp].
  apply negb_true_iff in Hk.
  assert (Hk' : k <> "") by (now apply String.eqb_neq).
  destruct (validate_api_key_cases k probe Hk') as (out & Hv & _).
  exists out. unfold main. cbn [truthy]. rewrite Hk. cbn [negb].
  rewrite Hv, Hp. reflexivity.
Qed.

(** X19. [main] never lets an exception escape, whatever the key, the
    provider's answers and the file system are. *)
Theorem main_never_raises (key : option string) (probe : result value)
  (env : os_env) (w : world) (st : os_state) :
  fst (main key probe env w st) = Ok tt.
Proof.
  destruct (key_usable key probe) eqn:Hu.
  - destruct key as [k|]; [|discriminate].
    destruct (main_usable_key k probe env w st Hu) as (out & ->).
    cbv zeta.
    destruct (scrape_places k DEFAULT_PLACE_TYPE DEFAULT_LOCATION
                DEFAULT_FETCH_DETAILS DEFAULT_RADIUS w) as [[results|e] w1].
    + destruct (truthy (PList results)); [|reflexivity].
      destruct (export_data_default_returns env results DEFAULT_PLACE_TYPE
                  DEFAULT_LOCATION st) as (m & st' & ->).
      reflexivity.
    + cbn [try_except find fst snd is_KeyboardInterrupt].
      rewrite is_Exception_all. reflexivity.
  - destruct (main_unusable_key key probe env w st Hu) as (evs & -> & _).
    reflexivity.
Qed.

(** X20. When the scraping raises or finds nothing, [main] opens no file:
    the file system is left as it was, and the run ends with the error or
    the "no results" line. *)
Theorem main_no_export_without_results (k : string) (probe : result value)
  (env : os_env) (w : world) (st : os_state) :
  key_usable (Some k) probe = true ->
  match fst (scrape_places k DEFAULT_PLACE_TYPE DEFAULT_LOCATION
               DEFAULT_FETCH_DETAILS DEFAULT_RADIUS w) with
  | Ok [] | Raise _ => True
  | Ok _ => False
  end ->
  exists evs last,
    main (Some k) probe env w st
    = (Ok tt,
       ((evs ++ [AppPrint last])%list,
        snd (scrape_places k DEFAULT_PLACE_TYPE DEFAULT_LOCATION
               DEFAULT_FETCH_DETAILS DEFAULT_RADIUS w),
        st))
    /\ last
       = match fst (scrape_places k DEFAULT_PLACE_TYPE DEFAULT_LOCATION
                      DEFAULT_FETCH_DETAILS DEFAULT_RADIUS w) with
         | Raise e => MsgErrorOccurred e
         | Ok _ => MsgNoResultsFound
         end.
Proof.
  intros Hu Hs.
  destruct (main_usable_key k probe env w st Hu) as (out & ->).
  cbv zeta.
  destruct (scrape_places k DEFAULT_PLACE_TYPE DEFAULT_LOCATION
              DEFAULT_FETCH_DETAILS DEFAULT_RADIUS w) as [[results|e] w1];
    cbn [fst snd] in *.
  - destruct results; [|contradiction]. cbn [truthy try_except].
    eexists. eexists. split; reflexivity.
  - cbn [try_except find fst snd is_KeyboardInterrupt].
    rewrite is_Exception_all. eexists. eexists. split; reflexivity.
Qed.

(** The no-export theorem on a search result without [place_id]. *)
Lemma main_no_export_without_results_witness :
  let probe := Ok (PDict [("status", PStr "OK")]) in
  let w := mkWorld [page "OK" [PDict [("name", PStr "No id")]] PNone] [] in
  let env := plain_env (fun _ => 0) (fun _ => true) in
  key_usable (Some "key") probe = true
  /\ fst (scrape_places "key" DEFAULT_PLACE_TYPE DEFAULT_LOCATION
            DEFAULT_FETCH_DETAILS DEFAULT_RADIUS w)
     = Raise (KeyError "place_id")
  /\ snd (snd (main (Some "key") probe env w (mkOs 0 []))) = mkOs 0 [].
Proof.
  intros probe w env. do 2 (split; [reflexivity|]).
  destruct (main_no_export_without_results "key" probe env w (mkOs 0 [])
              eq_refl I) as (evs & last & H & _).
  rewrite H. reflexivity.
Defined.

Lemma export_data_default_cases (env : os_env) (data : list value)
  (place_type location : string) (st : os_state) :
  data <> [] ->
  let json_file := fst (generate_filename env place_type location "json" st) in
  let csv_file :=
    fst (generate_filename env place_type location "csv"
           (mkOs (S (clock_reads st)) (os_trace st))) in
  exists m1 m2,
    export_data env data place_type location None st
    = (Ok [ ("json",
             PBool (write_ok env json_file && json_data_ok env data));
            ("csv", PBool (write_ok env csv_file && csv_rows_ok env data)) ],
       mkOs (S (S (clock_reads st)))
         (os_trace st ++ [ OsOpen json_file; OsPrint m1;
                           OsOpen csv_file; OsPrint m2 ])).
Proof.
  intros Hne json_file csv_file.
  assert (G1 : generate_filename env place_type location "json" st
               = (json_file, mkOs (S (clock_reads st)) (os_trace st)))
    by reflexivity.
  assert (G2 : forall tr,
             generate_filename env place_type location "csv"
               (mkOs (S (clock_reads st)) tr)
             = (csv_file, mkOs (S (S (clock_reads st))) tr))
    by reflexivity.
  clearbody json_file csv_file.
  unfold export_data. rewrite export_loop_json, G1. cbv beta iota.
  destruct (save_to_json_cases env data json_file
              (mkOs (S (clock_reads st)) (os_trace st))) as (m1 & ->).
  cbn [clock_reads os_trace].
  rewrite export_loop_csv, G2. cbv beta iota.
  destruct (save_to_csv_cases env data csv_file
              (mkOs (S (S (clock_reads st)))
                 (os_trace st ++ [OsOpen json_file; OsPrint m1])) Hne)
    as (m2 & ->).
  cbn [clock_reads os_trace export_loop].
  exists m1, m2. rewrite <- app_assoc. reflexivity.
Qed.

(** X21. With a usable key and a non-empty scraping result, [main] writes
    the records to [business_la_défense_<timestamp>.json] and
    [business_la_défense_<timestamp>.csv], opening both files whatever
    happens to the other, and reports each format as successful exactly
    when its file could be written and the runtime could serialise the
    records: the CSV key check never fails on them. *)
Theorem main_exports_results (k : string) (probe : result value)
  (env : os_env) (w : world) (st : os_state) (out : list value)
  (w1 : world) :
  key_usable (Some k) probe = true ->
  scrape_places k DEFAULT_PLACE_TYPE DEFAULT_LOCATION DEFAULT_FETCH_DETAILS
    DEFAULT_RADIUS w
  = (Ok out, w1) ->
  out <> [] ->
  let stem := "business_la_d" ++ String "233" "fense_" in
  let json_file :=
    stem ++ str_of_int (clock env (clock_reads st)) ++ ".json" in
  let csv_file :=
    stem ++ str_of_int (clock env (S (clock_reads st))) ++ ".csv" in
  exists evs m1 m2,
    main (Some k) probe env w st
    = (Ok tt,
       ((evs ++
         [ AppPrint MsgCompleted;
           AppPrint (MsgFound (List.length out) DEFAULT_PLACE_TYPE
                       DEFAULT_LOCATION);
           AppPrint (MsgExportStatus "json"
                       (write_ok env json_file && json_data_ok env out));
           AppPrint (MsgExportStatus "csv"
                       (write_ok env csv_file && csv_content_ok env out)) ])
        %list,
        w1,
        mkOs (S (S (clock_reads st)))
          (os_trace st ++ [ OsOpen json_file; OsPrint m1;
                            OsOpen csv_file; OsPrint m2 ]))).
Proof.
  intros Hu Hs Hne stem json_file csv_file.
  destruct (main_usable_key k probe env w st Hu) as (o & ->).
  cbv zeta. rewrite Hs.
  assert (Ht : truthy (PList out) = true)
    by (destruct out; [congruence | reflexivity]).
  rewrite Ht.
  destruct (export_data_default_cases env out DEFAULT_PLACE_TYPE
              DEFAULT_LOCATION st Hne) as (m1 & m2 & ->).
  destruct (scrape_places_rows _ _ _ _ _ _ _ _ Hs) as (_ & Hrows).
  rewrite (Hrows Hne env).
  cbn [try_except export_report map fst snd truthy].
  eexists. exists m1, m2. reflexivity.
Qed.

(** The end-to-end theorem on one search result whose detail lookup is
    rejected, with the CSV file denied. *)
Lemma main_exports_results_witness :
  let probe := Ok (PDict [("status", PStr "OK")]) in
  let w := mkWorld [page "OK" [example_place "a"] PNone; HttpFailure] [] in
  let env := plain_env (fun _ => 1700000000)
               (fun f => negb (String.eqb f
                  ("business_la_d" ++ String "233" "fense_1700000000.csv")))
  in
  key_usable (Some "key") probe = true
  /\ exists evs m1 m2,
       snd (main (Some "key") probe env w (mkOs 0 []))
       = (evs, mkWorld [] (trace (snd (scrape_places "key"
                                         DEFAULT_PLACE_TYPE DEFAULT_LOCATION
                                         DEFAULT_FETCH_DETAILS DEFAULT_RADIUS
                                         w))),
          mkOs 2
            [ OsOpen
                ("business_la_d" ++ String "233" "fense_1700000000.json");
              OsPrint m1;
              OsOpen
                ("business_la_d" ++ String "233" "fense_1700000000.csv");
              OsPrint m2 ]).
Proof.
  intros probe w env. split; [reflexivity|].
  destruct (main_exports_results "key" probe env w (mkOs 0 []) _ _
              eq_refl eq_refl ltac:(discriminate))
    as (evs & m1 & m2 & H).
  rewrite H. eexists. exists m1, m2. reflexivity.
Defined.

(** The stopping theorem on a second answer that is a JSON array. *)
Lemma search_places_stops_at_first_final_page_witness :
  let first := page "OK" [example_place "a"; example_place "b"] (PStr "t1") in
  let second := Body (PList []) in
  let w := mkWorld [first; second; ConnFailure] [] in
  pending w = ([first] ++ second :: [ConnFailure])%list
  /\ forallb continues [first] = true
  /\ continues second = false
  /\ exists new,
       search_places "key" "cafe" "Paris" 50000 w
       = (Ok [example_place "a"; example_place "b"],
          mkWorld [ConnFailure] new)
       /\ count_sleeps new = 1%nat.
Proof.
  intros first second w. do 3 (split; [reflexivity|]).
  destruct (search_places_stops_at_first_final_page "key" "cafe" "Paris"
              50000 w [first] second [ConnFailure] eq_refl eq_refl eq_refl)
    as (new & H & _ & Hs).
  exists new. split; assumption.
Defined.
